(** * Trajectory replay engine of [environments/replay.py]

    A shallow embedding of [TaskStepExecutor]: the JSON payloads of the
    recorded steps, the pure helpers (coordinate extraction, selector
    construction, CSS escaping, event-type splitting, URL comparison and the
    SPA heuristic over a model of Python's [urllib.parse.urlparse]), the
    asynchronous handlers as programs of a state and exception monad over an
    abstract Playwright page, and the replay loop of [run].

    Modelling choices:
    - Python strings are [string] (8-bit characters, read as Latin-1 code
      points).
    - Python numbers ([int], [float], and [bool], a subclass of [int]) are
      rationals [Q]; [float(...)] is the identity.
    - Every browser call is appended to a trace; whether it raises, what
      [count()] answers and what [page.url] becomes afterwards are given by
      an abstract browser that may depend on the whole trace so far. *)

From Stdlib Require Import String Ascii List Bool Arith Lia ZArith QArith.
Import ListNotations.
Open Scope nat_scope.
Open Scope string_scope.

(** ** Python values (the decoded JSON of [event_data_json]) *)

Set Warnings "-register-all".
Inductive val : Type :=
| VNone
| VBool (b : bool)
| VNum (q : Q)
| VStr (s : string)
| VList (l : list val)
| VDict (d : list (string * val)).

(** [d.get(k)] on a dict: the first binding of [k]. *)
Fixpoint dict_get (d : list (string * val)) (k : string) : option val :=
  match d with
  | [] => None
  | (k', v) :: d' => if String.eqb k k' then Some v else dict_get d' k
  end.

(** [payload.get(k) if isinstance(payload, dict) else None]; a missing key
    and a JSON null both read as [None]. *)
Definition get (p : val) (k : string) : val :=
  match p with
  | VDict d => match dict_get d k with Some v => v | None => VNone end
  | _ => VNone
  end.

(** Python truthiness. *)
Definition truthy (v : val) : bool :=
  match v with
  | VNone => false
  | VBool b => b
  | VNum q => negb (Qeq_bool q 0%Q)
  | VStr s => negb (String.eqb s "")
  | VList l => match l with [] => false | _ => true end
  | VDict d => match d with [] => false | _ => true end
  end.

(** [a or b]. *)
Definition py_or (a b : val) : val := if truthy a then a else b.

(** [isinstance(v, (int, float))], with the number it denotes. *)
Definition num_of (v : val) : option Q :=
  match v with
  | VBool b => Some (if b then 1 else 0)%Q
  | VNum q => Some q
  | _ => None
  end.

Definition is_num (v : val) : bool :=
  match num_of v with Some _ => true | None => false end.

Definition is_dict (v : val) : bool :=
  match v with VDict _ => true | _ => false end.

(** [v is None]. *)
Definition is_none (v : val) : bool :=
  match v with VNone => true | _ => false end.

(** [v == "about:blank"] for an arbitrary value. *)
Definition py_eq_str (v : val) (s : string) : bool :=
  match v with VStr s' => String.eqb s' s | _ => false end.

(** Python exceptions that the handlers raise, catch or let through. *)
Inductive exn : Type :=
| TimeoutError            (* playwright's TimeoutError *)
| PlaywrightError (msg : string)
| TypeError
| AttributeError
| GenericException (msg : string).

Definition is_timeout (e : exn) : bool :=
  match e with TimeoutError => true | _ => false end.

(** Result of a computation that may raise. *)
Inductive res (A : Type) : Type :=
| Ok (a : A)
| Exc (e : exn).
Arguments Ok {A} a.
Arguments Exc {A} e.

(** ** Characters and strings *)

Definition chr (n : nat) : ascii := ascii_of_nat n.
Definition dq : ascii := chr 34.
Definition sq : ascii := chr 39.
Definition bs : ascii := chr 92.
Definition str1 (c : ascii) : string := String c EmptyString.

(** [str.lower] on Latin-1 code points. *)
Definition lower_char (c : ascii) : ascii :=
  (let n := nat_of_ascii c in
  if ((65 <=? n) && (n <=? 90)) || ((192 <=? n) && (n <=? 222) && negb (n =? 215))
  then chr (n + 32) else c)%nat.

Fixpoint lower (s : string) : string :=
  match s with
  | EmptyString => EmptyString
  | String c r => String (lower_char c) (lower r)
  end.

(** [str.isspace] on Latin-1 code points. *)
Definition is_space (c : ascii) : bool :=
  (let n := nat_of_ascii c in
  ((9 <=? n) && (n <=? 13)) || ((28 <=? n) && (n <=? 32)) || (n =? 133) || (n =? 160))%nat.

(** [str.split()] with no separator: runs of whitespace separate, no empty
    parts. *)
Fixpoint split_ws_aux (s : string) (cur : string) : list string :=
  match s with
  | EmptyString => if String.eqb cur "" then [] else [cur]
  | String c r =>
      if is_space c
      then (if String.eqb cur "" then [] else [cur]) ++ split_ws_aux r ""
      else split_ws_aux r (cur ++ str1 c)
  end.

Definition split_ws (s : string) : list string := split_ws_aux s "".

(** [s.rstrip("/")]. *)
Fixpoint rstrip_slash (s : string) : string :=
  match s with
  | EmptyString => EmptyString
  | String c r =>
      let r' := rstrip_slash r in
      if String.eqb r' "" && Ascii.eqb c "/" then "" else String c r'
  end.

(** [s.endswith(suf)]. *)
Definition ends_with (suf s : string) : bool :=
  (String.length suf <=? String.length s)%nat
  && String.eqb (substring (String.length s - String.length suf) (String.length suf) s) suf.

(** [c in s]. *)
Fixpoint has_char (c : ascii) (s : string) : bool :=
  match s with
  | EmptyString => false
  | String c' r => Ascii.eqb c c' || has_char c r
  end.

(** [s.find(c)]. *)
Fixpoint find_char (c : ascii) (s : string) : option nat :=
  match s with
  | EmptyString => None
  | String c' r => if Ascii.eqb c c' then Some 0 else option_map S (find_char c r)
  end.

(** [s.split(c, 1)] when [c in s]. *)
Fixpoint split_once (c : ascii) (s : string) : option (string * string) :=
  match s with
  | EmptyString => None
  | String c' r =>
      if Ascii.eqb c c' then Some ("", r)
      else match split_once c r with
           | Some (a, b) => Some (String c' a, b)
           | None => None
           end
  end.

Fixpoint remove_char (c : ascii) (s : string) : string :=
  match s with
  | EmptyString => EmptyString
  | String c' r => if Ascii.eqb c c' then remove_char c r else String c' (remove_char c r)
  end.

(** ** [_css_escape] and [_build_selector] *)

(** [CSS_ESCAPE_MAP], entry by entry. *)
Definition CSS_ESCAPE_MAP : list (ascii * string) :=
  [ (chr 10, str1 bs ++ "A ");
    (chr 13, "");
    (chr 12, str1 bs ++ "C ");
    (chr 9, " ");
    (chr 32, " ");
    (dq, String bs (str1 dq));
    (sq, String bs (str1 sq));
    ("#"%char, str1 bs ++ "#");
    (":"%char, str1 bs ++ ":") ].

Fixpoint escape_lookup (m : list (ascii * string)) (c : ascii) : option string :=
  match m with
  | [] => None
  | (k, v) :: m' => if Ascii.eqb c k then Some v else escape_lookup m' c
  end.

(** [CSS_ESCAPE_MAP.get(ch, ch)]. *)
Definition escape_char (c : ascii) : string :=
  match escape_lookup CSS_ESCAPE_MAP c with Some v => v | None => str1 c end.

Fixpoint css_escape (s : string) : string :=
  match s with
  | EmptyString => EmptyString
  | String c r => escape_char c ++ css_escape r
  end.

Section Replay.

(** [str(v)] of a value that is neither a string, [None] nor a [bool]
    (numbers, lists, dicts): their decimal or [repr] rendering is not
    modelled. *)
Variable py_str_other : val -> string.

(** The two validations of [urlsplit] that are not modelled:
    [_check_bracketed_netloc] (IPv6 and IPvFuture literals, for a netloc
    that holds both brackets) and [_checknetloc] (NFKC normalisation, for a
    netloc with non-ASCII characters). *)
Variable bracketed_netloc_ok : string -> bool.
Variable nonascii_netloc_ok : string -> bool.

Definition py_str (v : val) : string :=
  match v with
  | VStr s => s
  | VNone => "None"
  | VBool b => if b then "True" else "False"
  | _ => py_str_other v
  end.

(** [v.lower()]: only strings have the method. *)
Definition py_lower (v : val) : res string :=
  match v with
  | VStr s => Ok (lower s)
  | _ => Exc AttributeError
  end.

(** [_build_selector]. *)
Definition _build_selector (payload : val) : res (option string) :=
  let element_id := get payload "id" in
  if truthy element_id then Ok (Some ("#" ++ css_escape (py_str element_id)))
  else
    let class_name := get payload "className" in
    let tag := get payload "tag" in
    if truthy class_name then
      let classes :=
        map css_escape (filter (fun part => negb (String.eqb part "")) (split_ws (py_str class_name))) in
      match classes with
      | [] => Ok None
      | _ :: _ =>
          match (if truthy tag then py_lower (py_or tag (VStr "*")) else Ok "*") with
          | Exc e => Exc e
          | Ok prefix => Ok (Some (prefix ++ String.concat "" (map (fun cls => "." ++ cls) classes)))
          end
      end
    else Ok None.

(** [_is_valid_point]. *)
Definition _is_valid_point (point : val) : bool :=
  is_dict point && is_num (get point "x") && is_num (get point "y").

(** [float(point["x"]), float(point["y"])] for a valid point. *)
Definition point_xy (point : val) : option (Q * Q) :=
  if _is_valid_point point then
    match num_of (get point "x"), num_of (get point "y") with
    | Some x, Some y => Some (x, y)
    | _, _ => None
    end
  else None.

Fixpoint first_valid (coords : val) (keys : list string) : option (Q * Q) :=
  match keys with
  | [] => None
  | key :: keys' =>
      match point_xy (get coords key) with
      | Some xy => Some xy
      | None => first_valid coords keys'
      end
  end.

(** [rect.get(k, 0)]. *)
Definition get_default0 (rect : val) (k : string) : val :=
  match rect with
  | VDict d => match dict_get d k with Some v => v | None => VNum 0%Q end
  | _ => VNone
  end.

(** [_extract_coordinates]; [left + width / 2] raises [TypeError] when
    [width] (or [height]) is not a number. *)
Definition _extract_coordinates (payload : val) : res (option (Q * Q)) :=
  let coords := get payload "coordinates" in
  let from_coords :=
    if is_dict coords then
      match first_valid coords ["client"; "page"; "offset"] with
      | Some xy => Some xy
      | None =>
          let relative := get coords "relative" in
          let viewport := py_or (get coords "viewport") (get payload "viewport") in
          match point_xy relative, is_dict viewport,
                num_of (get viewport "width"), num_of (get viewport "height") with
          | Some (rx, ry), true, Some w, Some h => Some (rx * w, ry * h)%Q
          | _, _, _, _ => None
          end
      end
    else None in
  match from_coords with
  | Some xy => Ok (Some xy)
  | None =>
      match num_of (get payload "x"), num_of (get payload "y") with
      | Some x, Some y => Ok (Some (x, y))
      | _, _ =>
          let rect := get payload "elementRect" in
          if is_dict rect then
            match num_of (get rect "left"), num_of (get rect "top") with
            | Some left_, Some top_ =>
                match num_of (get_default0 rect "width"), num_of (get_default0 rect "height") with
                | Some width, Some height => Ok (Some (left_ + width / 2, top_ + height / 2)%Q)
                | _, _ => Exc TypeError
                end
            | _, _ => Ok None
            end
          else Ok None
      end
  end.

(** [_split_event_type]: [(event_type or "").split(":", 2)]. *)
Definition _split_event_type (event_type : string) : string * string * string :=
  match split_once ":" event_type with
  | None => (event_type, "", "")
  | Some (a, rest) =>
      match split_once ":" rest with
      | None => (a, rest, "")
      | Some (b, c) => (a, b, c)
      end
  end.

(** [_urls_differ]; [target.rstrip] raises on a non-string target. *)
Definition _urls_differ (current : string) (target : val) : res bool :=
  if String.eqb current "" then Ok true
  else match target with
       | VStr t => Ok (negb (String.eqb (rstrip_slash current) (rstrip_slash t)))
       | _ => Exc AttributeError
       end.

(** ** A model of [urllib.parse.urlparse] (CPython 3.12) *)

(** [_WHATWG_C0_CONTROL_OR_SPACE]. *)
Definition is_c0_or_space (c : ascii) : bool := (nat_of_ascii c <=? 32)%nat.

Fixpoint lstrip_c0 (s : string) : string :=
  match s with
  | EmptyString => EmptyString
  | String c r => if is_c0_or_space c then lstrip_c0 r else s
  end.

Fixpoint all_chars (f : ascii -> bool) (s : string) : bool :=
  match s with
  | EmptyString => true
  | String c r => f c && all_chars f r
  end.

Definition is_ascii_alpha (c : ascii) : bool :=
  (let n := nat_of_ascii c in ((65 <=? n) && (n <=? 90)) || ((97 <=? n) && (n <=? 122)))%nat.

Definition is_ascii_char (c : ascii) : bool := (nat_of_ascii c <? 128)%nat.

(** [scheme_chars]: ASCII letters, digits and [+-.]. *)
Definition is_scheme_char (c : ascii) : bool :=
  is_ascii_alpha c
  || (let n := nat_of_ascii c in (48 <=? n) && (n <=? 57))%nat
  || has_char c "+-.".

(** [_splitnetloc(url, 2)] applied to the text after the leading [//]. *)
Fixpoint split_netloc (s : string) : string * string :=
  match s with
  | EmptyString => ("", "")
  | String c r =>
      if has_char c "/?#" then ("", s)
      else let (a, b) := split_netloc r in (String c a, b)
  end.

(** [(url[:j], url[j:])] for the last ['/'] at index [j]. *)
Fixpoint split_last_slash (s : string) : option (string * string) :=
  match s with
  | EmptyString => None
  | String c r =>
      match split_last_slash r with
      | Some (a, b) => Some (String c a, b)
      | None => if Ascii.eqb c "/" then Some ("", s) else None
      end
  end.

(** [_splitparams], called when [';' in url]. *)
Definition _splitparams (url : string) : string * string :=
  match split_last_slash url with
  | Some (a, b) =>
      match split_once ";" b with
      | Some (b1, params) => (a ++ b1, params)
      | None => (url, "")
      end
  | None =>
      match split_once ";" url with
      | Some (a, params) => (a, params)
      | None => (url, "")
      end
  end.

Definition uses_params : list string :=
  [""; "ftp"; "hdl"; "prospero"; "http"; "imap"; "https"; "shttp"; "rtsp";
   "rtspu"; "sip"; "sips"; "mms"; "sftp"; "tel"].

Record parse_result : Type := mkparse {
  scheme : string;
  netloc : string;
  path : string;
  params : string;
  query : string;
  fragment : string }.

(** [urlsplit(url)]; [None] when it raises [ValueError]. *)
Definition urlsplit (url0 : string) : option (string * string * string * string * string) :=
  let url1 := lstrip_c0 url0 in
  let url2 := remove_char (chr 10) (remove_char (chr 13) (remove_char (chr 9) url1)) in
  let '(scheme0, url3) :=
    match find_char ":" url2, url2 with
    | Some i, String c0 _ =>
        if (0 <? i)%nat && is_ascii_alpha c0 && all_chars is_scheme_char (substring 0 i url2)
        then (lower (substring 0 i url2), substring (S i) (String.length url2 - S i) url2)
        else ("", url2)
    | _, _ => ("", url2)
    end in
  let '(netloc0, url4) :=
    match url3 with
    | String "/" (String "/" rest) => split_netloc rest
    | _ => ("", url3)
    end in
  let has_open := has_char "[" netloc0 in
  let has_close := has_char "]" netloc0 in
  if (has_open && negb has_close) || (has_close && negb has_open) then None
  else if has_open && has_close && negb (bracketed_netloc_ok netloc0) then None
  else
    let '(url5, fragment0) :=
      match split_once "#" url4 with Some p => p | None => (url4, "") end in
    let '(url6, query0) :=
      match split_once "?" url5 with Some p => p | None => (url5, "") end in
    if negb (String.eqb netloc0 "") && negb (all_chars is_ascii_char netloc0)
       && negb (nonascii_netloc_ok netloc0) then None
    else Some (scheme0, netloc0, url6, query0, fragment0).

(** [urlparse(url)]; [None] when it raises. *)
Definition urlparse (url : string) : option parse_result :=
  match urlsplit url with
  | None => None
  | Some (scheme0, netloc0, url0, query0, fragment0) =>
      let '(path0, params0) :=
        if existsb (String.eqb scheme0) uses_params && has_char ";" url0
        then _splitparams url0 else (url0, "") in
      Some (mkparse scheme0 netloc0 path0 params0 query0 fragment0)
  end.

Definition static_extensions : list string := [".html"; ".htm"; ".php"; ".asp"; ".jsp"].

(** [_is_spa_route_change] as a function of [page.url] and the target.  A
    target that is not a [str] makes [urlparse] raise (or return bytes
    components that never equal the [str] ones), which the [except] turns
    into [False]; so does a [ValueError] of [urlparse]. *)
Definition _is_spa_route_change (current_url : string) (target_url : val) : bool :=
  if String.eqb current_url "" || String.eqb current_url "about:blank" then false
  else
    match target_url with
    | VStr t =>
        match urlparse current_url, urlparse t with
        | Some current, Some target =>
            if negb (String.eqb (scheme current) (scheme target))
               || negb (String.eqb (netloc current) (netloc target)) then false
            else if String.eqb (scheme current) (scheme target)
                    && String.eqb (netloc current) (netloc target)
                    && String.eqb (path current) (path target)
                    && String.eqb (query current) (query target) then true
            else
              let target_path := lower (path target) in
              if existsb (fun ext => ends_with ext target_path) static_extensions then false
              else true
        | _, _ => false
        end
    | _ => false
    end.

(** ** The page, the browser and the replay monad *)

(** A Playwright locator: [page.locator(sel)] or its [.first]. *)
Inductive loc : Type :=
| Locator (selector : string)
| First (selector : string).

(** The browser calls the handlers issue. *)
Inductive call : Type :=
| Goto (url : val)                          (* page.goto(url, wait_until="domcontentloaded") *)
| WaitForLoadState (st : string) (timeout : Z)
| EvaluateScroll (x y : val)                (* page.evaluate(<scrollTo script>, {x, y}) *)
| EvaluatePushState (url : val)             (* page.evaluate(<pushState script>, url) *)
| MouseMove (x y : Q)
| MouseClick (x y : Q)
| LocatorClick (l : loc) (timeout : Z)
| LocatorFill (l : loc) (value : val) (timeout : Z)
| LocatorCount (l : loc)
| LocatorPress (l : loc) (key : string) (timeout : Z)
| KeyboardPress (key : val)
| KeyboardType (key : val).

Inductive event : Type :=
| Call (c : call)
| Sleep (ms : Z).                         (* asyncio.sleep *)

(** The page as the handlers see it.  Each answer may depend on everything
    issued before ([list event]). *)
Record browser : Type := mkbrowser {
  fails : list event -> call -> option exn;      (* the exception a call raises *)
  count_of : list event -> loc -> nat;           (* what [count()] resolves to *)
  url_after : list event -> call -> string -> string }. (* [page.url] after a call *)

(** The executor's state: [page.url], [self._initial_navigation_done] and the
    trace of issued operations. *)
Record state : Type := mkstate {
  page_url : string;
  initial_navigation_done : bool;
  trace : list event }.

Definition M (A : Type) : Type := browser -> state -> res A * state.

Definition ret {A} (a : A) : M A := fun _ s => (Ok a, s).

Definition bind {A B} (m : M A) (k : A -> M B) : M B :=
  fun br s =>
    match m br s with
    | (Ok a, s') => k a br s'
    | (Exc e, s') => (Exc e, s')
    end.

Notation "x <- m ;; k" := (bind m (fun x => k))
  (at level 61, m at next level, right associativity).
Notation "m ;; k" := (bind m (fun _ => k)) (at level 61, right associativity).

Definition raise {A} (e : exn) : M A := fun _ s => (Exc e, s).

Definition lift {A} (r : res A) : M A := fun _ s => (r, s).

Definition get_state : M state := fun _ s => (Ok s, s).

(** [self._initial_navigation_done = True]. *)
Definition set_navigation_done : M unit :=
  fun _ s => (Ok tt, mkstate (page_url s) true (trace s)).

(** [try: m except <catches>: h]. *)
Definition try_except {A} (catches : exn -> bool) (m : M A) (h : exn -> M A) : M A :=
  fun br s =>
    match m br s with
    | (Exc e, s') => if catches e then h e br s' else (Exc e, s')
    | r => r
    end.

Definition any_exception (_ : exn) : bool := true.

(** Issue one browser call. *)
Definition browser_call (c : call) : M unit :=
  fun br s =>
    let tr := trace s in
    let s' := mkstate (url_after br tr c (page_url s)) (initial_navigation_done s) (tr ++ [Call c]) in
    match fails br tr c with
    | Some e => (Exc e, s')
    | None => (Ok tt, s')
    end.

(** [await locator.count()]. *)
Definition count (l : loc) : M nat :=
  fun br s =>
    match browser_call (LocatorCount l) br s with
    | (Ok _, s') => (Ok (count_of br (trace s) l), s')
    | (Exc e, s') => (Exc e, s')
    end.

Definition sleep (ms : Z) : M unit :=
  fun _ s => (Ok tt, mkstate (page_url s) (initial_navigation_done s) (trace s ++ [Sleep ms])).

(** [if selector:] on an [Optional[str]]. *)
Definition truthy_selector (selector : option string) : option string :=
  match selector with
  | Some sel => if String.eqb sel "" then None else Some sel
  | None => None
  end.

(** ** Navigation and load-state handlers *)

Definition _safe_goto (url : val) : M unit :=
  try_except any_exception (browser_call (Goto url)) (fun _ => ret tt).

Definition _perform_spa_navigation (url : val) : M unit :=
  try_except any_exception
    (browser_call (EvaluatePushState url);; sleep 300%Z)
    (fun _ => _safe_goto url).

Definition _safe_wait_for_load (st : string) : M unit :=
  try_except any_exception (browser_call (WaitForLoadState st 15000%Z)) (fun _ => ret tt).

Definition _handle_state_step (subject action : string) (payload : val) : M unit :=
  if String.eqb subject "browser" && String.eqb action "navigated" then
    let url := get payload "url" in
    if negb (truthy url) || py_eq_str url "about:blank" then ret tt
    else
      s <- get_state;;
      necessary <- (if negb (initial_navigation_done s) then ret true
                    else lift (_urls_differ (page_url s) url));;
      if necessary then
        (if _is_spa_route_change (page_url s) url
         then _perform_spa_navigation url
         else _safe_goto url);;
        set_navigation_done
      else ret tt
  else if String.eqb subject "page" then
    if String.eqb action "domcontentloaded" || String.eqb action "domcontentload" then
      _safe_wait_for_load "domcontentloaded"
    else if String.eqb action "loaded" || String.eqb action "load" then
      _safe_wait_for_load "load"
    else ret tt
  else ret tt.

(** ** User-action handlers *)

Definition _perform_pointer_click (payload : val) : M unit :=
  coords <- lift (_extract_coordinates payload);;
  match coords with
  | None =>
      selector <- lift (_build_selector payload);;
      match truthy_selector selector with
      | Some sel =>
          try_except is_timeout
            (browser_call (LocatorClick (Locator sel) 5000%Z))
            (fun e => raise e)
      | None => raise (GenericException "No coordinates or selector available for click")
      end
  | Some (x, y) =>
      browser_call (MouseMove x y);;
      sleep 100%Z;;
      browser_call (MouseClick x y)
  end.

Definition _perform_pointer_move (payload : val) : M unit :=
  coords <- lift (_extract_coordinates payload);;
  match coords with
  | None => ret tt
  | Some (x, y) => browser_call (MouseMove x y)
  end.

(** [payload.get] is called without a dict check here: a payload that is not
    a dict raises [AttributeError]. *)
Definition _perform_scroll (payload : val) : M unit :=
  if is_dict payload then
    let x := get payload "x" in
    let y := get payload "y" in
    if is_num x && is_num y then
      try_except any_exception (browser_call (EvaluateScroll x y)) (fun _ => ret tt)
    else ret tt
  else raise AttributeError.

Definition _perform_input (payload : val) : M unit :=
  let value := get payload "value" in
  if is_none value then ret tt
  else
      selector <- lift (_build_selector payload);;
      filled <- match truthy_selector selector with
                | Some sel =>
                    try_except is_timeout
                      (browser_call (LocatorFill (Locator sel) value 5000%Z);; ret true)
                      (fun _ => ret false)
                | None => ret false
                end;;
      if filled then ret tt
      else
        focused_filled <-
          try_except any_exception
            (n <- count (Locator ":focus");;
             if (0 <? n)%nat
             then browser_call (LocatorFill (Locator ":focus") value 2000%Z);; ret true
             else ret false)
            (fun _ => ret false);;
        if focused_filled then ret tt
        else raise (GenericException "Input operation failed").

Definition _perform_keydown (payload : val) : M unit :=
  let key := get payload "key" in
  if negb (truthy key) then ret tt
  else try_except any_exception (browser_call (KeyboardPress key))
         (fun _ => browser_call (KeyboardType key)).

(** [button[type="submit"], input[type="submit"]]. *)
Definition submit_button_selector : string :=
  "button[type=" ++ str1 dq ++ "submit" ++ str1 dq ++ "], input[type="
  ++ str1 dq ++ "submit" ++ str1 dq ++ "]".

Definition _perform_submit (payload : val) : M unit :=
  selector <- lift (_build_selector payload);;
  try_except any_exception
    (submitted <- match truthy_selector selector with
                  | Some sel =>
                      n <- count (Locator sel);;
                      if (0 <? n)%nat
                      then browser_call (LocatorPress (Locator sel) "Enter" 2000%Z);; ret true
                      else ret false
                  | None => ret false
                  end;;
     if submitted then ret tt
     else
       n2 <- count (First submit_button_selector);;
       if (0 <? n2)%nat then browser_call (LocatorClick (First submit_button_selector) 2000%Z)
       else
         n3 <- count (Locator ":focus");;
         if (0 <? n3)%nat then browser_call (LocatorPress (Locator ":focus") "Enter" 2000%Z)
         else
           n4 <- count (First "form");;
           if (0 <? n4)%nat then browser_call (LocatorPress (First "form") "Enter" 2000%Z)
           else raise (GenericException "Submit operation failed"))
    (fun e => raise e).

Definition _handle_user_action (action : string) (payload : val) : M unit :=
  if String.eqb action "click" then _perform_pointer_click payload
  else if String.eqb action "hover" then _perform_pointer_move payload
  else if String.eqb action "scroll" then _perform_scroll payload
  else if String.eqb action "input" then _perform_input payload
  else if String.eqb action "keydown" then _perform_keydown payload
  else if String.eqb action "submit" then _perform_submit payload
  else ret tt.

(** ** Steps and the replay loop *)

Record StepModel : Type := mkstep {
  step_id : nat;
  event_type : string;
  event_data_json : val }.

Definition _run_step (step : StepModel) : M unit :=
  let '(category, subject, action) := _split_event_type (event_type step) in
  if String.eqb category "state" then
    _handle_state_step subject action (event_data_json step)
  else if String.eqb category "action" && String.eqb subject "user" then
    _handle_user_action action (event_data_json step)
  else ret tt.

(** How [run] left the loop: past the last step, or through the [return] of
    its [except Exception] clause at [step]. *)
Inductive outcome : Type :=
| Completed
| StoppedOnError (step : StepModel) (e : exn).

(** [try: ... except Exception: ...]: every modelled exception is an
    [Exception]. *)
Definition attempt {A} (m : M A) : M (res A) :=
  fun br s => let '(r, s') := m br s in (Ok r, s').

(** The [for step in self.trajectory] loop of [run]. *)
Fixpoint replay_steps (base_delay : Z) (steps : list StepModel) : M outcome :=
  match steps with
  | [] => ret Completed
  | step :: rest =>
      r <- attempt (_run_step step);;
      match r with
      | Exc e => ret (StoppedOnError step e)
      | Ok _ => sleep base_delay;; replay_steps base_delay rest
      end
  end.

(** [if page.url and page.url != "about:blank": ...] at the start of [run]. *)
Definition preset_navigation_done : M unit :=
  s <- get_state;;
  if negb (String.eqb (page_url s) "") && negb (String.eqb (page_url s) "about:blank")
  then set_navigation_done else ret tt.

Definition run (run_human_trajectory : bool) (trajectory : list StepModel) : M outcome :=
  preset_navigation_done;;
  replay_steps (if run_human_trajectory then 200 else 100)%Z trajectory.

(** ** Reference programs written from the spec *)

(** The trajectory processed step after step, each followed by the pacing
    sleep, with nothing caught. *)
Fixpoint process_in_order (base_delay : Z) (steps : list StepModel) : M unit :=
  match steps with
  | [] => ret tt
  | step :: rest => _run_step step;; sleep base_delay;; process_in_order base_delay rest
  end.

Definition base_delay_of (run_human_trajectory : bool) : Z :=
  if run_human_trajectory then 200%Z else 100%Z.

(** Whether the lower-cased target path ends in a static-document
    extension. *)
Definition static_document_path (p : string) : bool :=
  existsb (fun ext => ends_with ext (lower p)) static_extensions.

(** [payload] without its [key] entries. *)
Definition without_key (key : string) (payload : val) : val :=
  match payload with
  | VDict d => VDict (filter (fun kv => negb (String.eqb (fst kv) key)) d)
  | _ => payload
  end.

Definition input_failed : exn := GenericException "Input operation failed".

(** The focused-element fallback of the input row: fill the focused element
    (2 s) when there is one; the input fails when there is none, or when
    counting or filling raises. *)
Definition focused_fill_or_fail (value : val) : M unit :=
  fun br s =>
    match count (Locator ":focus") br s with
    | (Ok n, s1) =>
        if (0 <? n)%nat then
          match browser_call (LocatorFill (Locator ":focus") value 2000%Z) br s1 with
          | (Ok _, s2) => (Ok tt, s2)
          | (Exc _, s2) => (Exc input_failed, s2)
          end
        else (Exc input_failed, s1)
    | (Exc _, s1) => (Exc input_failed, s1)
    end.

(** The submit strategies in order: the locator whose presence selects the
    strategy and the one call the strategy then makes. *)
Definition submit_strategies (selector : option string) : list (loc * call) :=
  (match truthy_selector selector with
   | Some sel => [(Locator sel, LocatorPress (Locator sel) "Enter" 2000%Z)]
   | None => []
   end)
  ++ [(First submit_button_selector, LocatorClick (First submit_button_selector) 2000%Z);
      (Locator ":focus", LocatorPress (Locator ":focus") "Enter" 2000%Z);
      (First "form", LocatorPress (First "form") "Enter" 2000%Z)].

(** Run the first strategy whose element is present, and only that one. *)
Fixpoint first_present (strategies : list (loc * call)) : M unit :=
  match strategies with
  | [] => raise (GenericException "Submit operation failed")
  | (l, c) :: rest =>
      n <- count l;;
      if (0 <? n)%nat then browser_call c else first_present rest
  end.


(** ** What a computation does to the state *)

(** [s'] extends [s]: the trace only grew and the navigation flag, once
    set, stayed set. *)
Definition extends (s s' : state) : Prop :=
  (exists new, trace s' = (trace s ++ new)%list)
  /\ (initial_navigation_done s = true -> initial_navigation_done s' = true).

Definition grows {A} (m : M A) : Prop := forall br s, extends s (snd (m br s)).

(** ** Concrete pages *)

(** Instances of the unmodelled library behaviour for concrete runs: every
    netloc passes [urlsplit]'s extra validations; [str()] of a non-string
    is never needed. *)
Definition accept_netloc : string -> bool := fun _ => true.
Definition no_repr : val -> string := fun _ => "".

(** The state of a fresh page. *)
Definition blank_state : state := mkstate "about:blank" false [].

(** Every call succeeds, every locator matches nothing, [page.url] stays. *)
Definition quiet_browser : browser :=
  mkbrowser (fun _ _ => None) (fun _ _ => 0) (fun _ _ u => u).

(** A page whose pointer calls raise (the page has been closed). *)
Definition closed_page_browser : browser :=
  mkbrowser
    (fun _ c => match c with
                | MouseMove _ _ | MouseClick _ _ =>
                    Some (PlaywrightError "Target page, context or browser has been closed")
                | _ => None
                end)
    (fun _ _ => 1) (fun _ _ u => u).

(** A page where [#name] is not an input: filling it raises a playwright
    error that is not a timeout; a focused element exists and accepts
    [fill]. *)
Definition fill_rejecting_browser : browser :=
  mkbrowser
    (fun _ c => match c with
                | LocatorFill (Locator sel) _ _ =>
                    if String.eqb sel "#name"
                    then Some (PlaywrightError "Element is not an <input>") else None
                | _ => None
                end)
    (fun _ _ => 1) (fun _ _ u => u).

(** A page where pressing Enter on [#checkout] times out, while a submit
    button is present and can be clicked. *)
Definition stuck_form_browser : browser :=
  mkbrowser
    (fun _ c => match c with
                | LocatorPress (Locator sel) _ _ =>
                    if String.eqb sel "#checkout" then Some TimeoutError else None
                | _ => None
                end)
    (fun _ _ => 1) (fun _ _ u => u).

(** ** Properties *)

Lemma replay_steps_cons base_delay step rest br s :
  replay_steps base_delay (step :: rest) br s =
  match _run_step step br s with
  | (Exc e, s1) => (Ok (StoppedOnError step e), s1)
  | (Ok _, s1) => replay_steps base_delay rest br (snd (sleep base_delay br s1))
  end.
Proof.
  unfold replay_steps at 1; fold replay_steps.
  unfold bind, attempt, ret.
  destruct (_run_step step br s) as [[u|e] s1]; reflexivity.
Qed.

Lemma process_in_order_cons base_delay step rest br s :
  process_in_order base_delay (step :: rest) br s =
  match _run_step step br s with
  | (Exc e, s1) => (Exc e, s1)
  | (Ok _, s1) => process_in_order base_delay rest br (snd (sleep base_delay br s1))
  end.
Proof.
  simpl. unfold bind.
  destruct (_run_step step br s) as [[u|e] s1]; reflexivity.
Qed.

(** C1: the replay processes the trajectory in order; either every step
    runs without raising and the replay ends [Completed] in the state the
    in-order processing reaches, or some step raises after the steps before
    it ran in order, and the replay ends [StoppedOnError] at that step in
    exactly the state the failing step left: no later step is processed. *)
Theorem replay_fail_fast :
  forall br run_human_trajectory trajectory s,
    let s0 := snd (preset_navigation_done br s) in
    let d := base_delay_of run_human_trajectory in
    (exists s', process_in_order d trajectory br s0 = (Ok tt, s')
                /\ run run_human_trajectory trajectory br s = (Ok Completed, s'))
    \/ (exists pre step post e s1 s2,
          trajectory = (pre ++ step :: post)%list
          /\ process_in_order d pre br s0 = (Ok tt, s1)
          /\ _run_step step br s1 = (Exc e, s2)
          /\ run run_human_trajectory trajectory br s = (Ok (StoppedOnError step e), s2)).
Proof.
  intros br h traj s s0 d.
  assert (Hrun : run h traj br s = replay_steps d traj br s0).
  { unfold run, s0, d, base_delay_of, bind.
    destruct (preset_navigation_done br s) as [[u|e] s'] eqn:E.
    - reflexivity.
    - exfalso. revert E. unfold preset_navigation_done, bind, get_state.
      destruct (_ && _); discriminate. }
  rewrite Hrun. clearbody s0 d. clear Hrun s.
  revert s0. induction traj as [|step rest IH]; intros s0.
  - left. exists s0. split; reflexivity.
  - rewrite replay_steps_cons, process_in_order_cons.
    destruct (_run_step step br s0) as [[u|e] s1] eqn:Estep.
    + destruct (IH (snd (sleep d br s1))) as [(s' & H1 & H2)|(pre & st & post & e & s2 & s3 & H1 & H2 & H3 & H4)].
      * left. exists s'. split; assumption.
      * right. exists (step :: pre), st, post, e, s2, s3.
        split; [rewrite H1; reflexivity|].
        split; [rewrite process_in_order_cons, Estep; exact H2|].
        split; assumption.
    + right. exists [], step, rest, e, s0, s1.
      split; [reflexivity|]. split; [reflexivity|]. split; [exact Estep|reflexivity].
Qed.

(** C2 (amended): the SPA heuristic.  An empty or [about:blank] current URL
    gives a real navigation; a URL that [urlparse] rejects gives a real
    navigation; otherwise, with both URLs parsed, a different scheme or
    netloc (host with port and user info) gives a real navigation; same
    scheme and netloc with identical path and query gives an SPA route
    change; same scheme and netloc with a different path or query gives a
    real navigation exactly when the lower-cased target path ends in
    [.html], [.htm], [.php], [.asp] or [.jsp], and an SPA route change
    otherwise. *)
Theorem spa_route_change_classification :
  forall current target : string,
    ((current = "" \/ current = "about:blank") ->
       _is_spa_route_change current (VStr target) = false)
    /\ (current <> "" -> current <> "about:blank" ->
        ((urlparse current = None \/ urlparse target = None) ->
           _is_spa_route_change current (VStr target) = false)
        /\ (forall pc pt, urlparse current = Some pc -> urlparse target = Some pt ->
             ((scheme pc <> scheme pt \/ netloc pc <> netloc pt) ->
                _is_spa_route_change current (VStr target) = false)
             /\ (scheme pc = scheme pt -> netloc pc = netloc pt ->
                 path pc = path pt -> query pc = query pt ->
                 _is_spa_route_change current (VStr target) = true)
             /\ (scheme pc = scheme pt -> netloc pc = netloc pt ->
                 (path pc <> path pt \/ query pc <> query pt) ->
                 _is_spa_route_change current (VStr target)
                 = negb (static_document_path (path pt))))).
Proof.
  intros c t. split.
  - intros [-> | ->]; reflexivity.
  - intros Hc1 Hc2.
    assert (Hg : String.eqb c "" || String.eqb c "about:blank" = false).
    { apply orb_false_iff; split; apply String.eqb_neq; assumption. }
    unfold _is_spa_route_change. rewrite Hg. split.
    + intros [H|H]; rewrite H; [reflexivity|].
      destruct (urlparse c); reflexivity.
    + intros pc pt Hpc Hpt. rewrite Hpc, Hpt.
      split; [|split].
      * intros [H|H].
        -- apply String.eqb_neq in H. rewrite H. reflexivity.
        -- apply String.eqb_neq in H. rewrite H, orb_true_r. reflexivity.
      * intros H1 H2 H3 H4. rewrite H1, H2, H3, H4, !String.eqb_refl. reflexivity.
      * intros H1 H2 H3. rewrite H1, H2, !String.eqb_refl.
        unfold static_document_path. cbv zeta.
        assert (Hpq : String.eqb (path pc) (path pt) && String.eqb (query pc) (query pt) = false).
        { destruct H3 as [H3|H3]; apply String.eqb_neq in H3; rewrite H3;
            [reflexivity|apply andb_false_r]. }
        rewrite <- andb_assoc, Hpq.
        destruct (existsb (fun ext => ends_with ext (lower (path pt))) static_extensions);
          reflexivity.
Qed.

(** C3 (amended): once a real navigation has happened, a navigated step
    whose target equals the non-empty current URL after stripping trailing
    slashes from both issues no browser call and leaves the state as it
    was. *)
Theorem navigation_skipped_when_url_unchanged :
  forall br s payload target,
    initial_navigation_done s = true ->
    page_url s <> "" ->
    get payload "url" = VStr target ->
    rstrip_slash (page_url s) = rstrip_slash target ->
    _handle_state_step "browser" "navigated" payload br s = (Ok tt, s).
Proof.
  intros br s p t Hd Hne Hu Hr.
  unfold _handle_state_step. cbv zeta. rewrite Hu.
  simpl (String.eqb "browser" "browser" && String.eqb "navigated" "navigated").
  destruct (negb (truthy (VStr t)) || py_eq_str (VStr t) "about:blank"); [reflexivity|].
  unfold bind, get_state, lift, _urls_differ. rewrite Hd. simpl negb. cbv iota.
  apply String.eqb_neq in Hne. rewrite Hne, Hr, String.eqb_refl. reflexivity.
Qed.

Lemma safe_goto_returns url br s : fst (_safe_goto url br s) = Ok tt.
Proof.
  unfold _safe_goto, try_except, browser_call.
  destruct (fails br (trace s) (Goto url)); reflexivity.
Qed.

Lemma spa_navigation_returns url br s : fst (_perform_spa_navigation url br s) = Ok tt.
Proof.
  unfold _perform_spa_navigation, try_except.
  destruct (bind (browser_call (EvaluatePushState url)) (fun _ => sleep 300%Z) br s)
    as [[[]|e] s'].
  - reflexivity.
  - apply safe_goto_returns.
Qed.

(** C9 (amended): after a navigated step whose [url] is present (truthy)
    and not [about:blank], the flag [initial_navigation_done] is true,
    whichever branch ran (and even when [_urls_differ] raises on a
    non-string URL); a step whose [url] is missing, empty or [about:blank]
    returns at once and leaves the whole state, the flag included,
    unchanged. *)
Theorem navigation_flag_after_navigated :
  forall br s payload,
    let url := get payload "url" in
    ((truthy url = false \/ py_eq_str url "about:blank" = true) ->
       _handle_state_step "browser" "navigated" payload br s = (Ok tt, s))
    /\ (truthy url = true -> py_eq_str url "about:blank" = false ->
        initial_navigation_done (snd (_handle_state_step "browser" "navigated" payload br s))
        = true).
Proof.
  intros br s p url. unfold _handle_state_step. fold url. cbv zeta.
  simpl (String.eqb "browser" "browser" && String.eqb "navigated" "navigated").
  cbv iota. split.
  - intros [H|H]; rewrite H; [reflexivity|]. rewrite orb_true_r. reflexivity.
  - intros H1 H2. rewrite H1, H2. simpl (negb true || false). cbv iota.
    unfold bind at 1, get_state.
    assert (Hnav : forall b : bool, fst ((if b then _perform_spa_navigation url else _safe_goto url) br s)
                             = Ok tt).
    { intros []; [apply spa_navigation_returns|apply safe_goto_returns]. }
    destruct (initial_navigation_done s) eqn:Hd; simpl negb; cbv iota.
    + unfold bind at 1, lift.
      destruct (_urls_differ (page_url s) url) as [[|]|e]; [|exact Hd|exact Hd].
      unfold bind. specialize (Hnav (_is_spa_route_change (page_url s) url)).
      destruct ((if _is_spa_route_change (page_url s) url
                 then _perform_spa_navigation url else _safe_goto url) br s) as [[u|e] s'].
      * reflexivity.
      * discriminate Hnav.
    + unfold bind at 1, ret. unfold bind.
      specialize (Hnav (_is_spa_route_change (page_url s) url)).
      destruct ((if _is_spa_route_change (page_url s) url
                 then _perform_spa_navigation url else _safe_goto url) br s) as [[u|e] s'].
      * reflexivity.
      * discriminate Hnav.
Qed.

(** C8 (amended): the hover handler adds nothing of its own: when no
    coordinates resolve it issues no call and returns; when they resolve to
    [(x, y)] it is exactly one pointer move to [(x, y)], so it raises
    exactly when that move raises. *)
Theorem hover_is_one_pointer_move :
  forall payload br s,
    (_extract_coordinates payload = Ok None ->
       _perform_pointer_move payload br s = (Ok tt, s))
    /\ (forall x y, _extract_coordinates payload = Ok (Some (x, y)) ->
          _perform_pointer_move payload br s = browser_call (MouseMove x y) br s).
Proof.
  intros p br s. unfold _perform_pointer_move, bind, lift. split.
  - intros H. rewrite H. reflexivity.
  - intros x y H. rewrite H. reflexivity.
Qed.

Lemma get_without_other key k p :
  k <> key -> get (without_key key p) k = get p k.
Proof.
  intros Hk. destruct p as [| | | | |d]; try reflexivity. simpl.
  induction d as [|[k' v] d IH]; [reflexivity|]. simpl.
  destruct (String.eqb_spec k' key) as [->|Hne]; simpl.
  - apply String.eqb_neq in Hk. rewrite Hk. exact IH.
  - destruct (String.eqb k k'); [reflexivity|exact IH].
Qed.

Lemma get_without_same key p d :
  get p key = VDict d -> get (without_key key p) key = VNone.
Proof.
  intros H. destruct p as [| | | | |d0]; try discriminate. simpl. clear H.
  induction d0 as [|[k' v] d0 IH]; [reflexivity|]. simpl.
  destruct (String.eqb_spec k' key) as [->|Hne]; simpl.
  - exact IH.
  - apply not_eq_sym, String.eqb_neq in Hne. rewrite Hne. exact IH.
Qed.

(** C10: an [elementRect] with numeric [left] and [top] and neither [width]
    nor [height] resolves to [(left, top)] (its width and height default to
    0) whenever no earlier source of the payload resolves. *)
Theorem element_rect_defaults_to_left_top :
  forall payload d l t,
    _extract_coordinates (without_key "elementRect" payload) = Ok None ->
    get payload "elementRect" = VDict d ->
    dict_get d "width" = None ->
    dict_get d "height" = None ->
    num_of (get (VDict d) "left") = Some l ->
    num_of (get (VDict d) "top") = Some t ->
    exists x y, _extract_coordinates payload = Ok (Some (x, y)) /\ (x == l)%Q /\ (y == t)%Q.
Proof.
  intros p d l t Hnone Hr Hw Hh Hl Ht.
  unfold _extract_coordinates in *. cbv zeta in *.
  rewrite (get_without_same _ _ _ Hr) in Hnone.
  rewrite !get_without_other in Hnone by discriminate.
  rewrite Hr, Hl, Ht. simpl (is_dict (VDict d)).
  unfold get_default0. rewrite Hw, Hh. simpl (num_of (VNum 0)).
  match type of Hnone with
  | match ?e with Some _ => _ | None => _ end = _ => destruct e as [xy|]; [discriminate|]
  end.
  destruct (num_of (get p "x")), (num_of (get p "y")); try discriminate;
    exists (l + 0 / 2)%Q, (t + 0 / 2)%Q; (split; [reflexivity|split; field]).
Qed.

Lemma bind_lift {A B} (r : res A) (k : A -> M B) br s :
  bind (lift r) k br s = match r with Ok a => k a br s | Exc e => (Exc e, s) end.
Proof. destruct r; reflexivity. Qed.

Lemma try_except_reraise {A} catches (m : M A) br s :
  try_except catches m (fun e => raise e) br s = m br s.
Proof.
  unfold try_except, raise.
  destruct (m br s) as [[a|e] s']; [reflexivity|destruct (catches e); reflexivity].
Qed.

(** C6 (amended): the submit handler builds the selector, then looks at the
    four strategies in order (Enter on the selector's element, click on the
    first submit button, Enter on the focused element, Enter on the first
    form, 2 s each), runs the first one whose element is present, and only
    that one: its failure (or that of a [count()]) is the handler's
    failure, and the handler fails with "Submit operation failed" when no
    strategy's element is present. *)
Theorem submit_runs_first_present_strategy :
  forall payload br s,
    _perform_submit payload br s
    = (selector <- lift (_build_selector payload);;
       first_present (submit_strategies selector)) br s.
Proof.
  intros p br s. unfold _perform_submit. rewrite !bind_lift.
  destruct (_build_selector p) as [sel|e]; [|reflexivity].
  rewrite try_except_reraise. unfold submit_strategies.
  destruct (truthy_selector sel) as [sl|]; [|reflexivity].
  simpl app. unfold first_present at 1. fold first_present.
  unfold bind.
  destruct (count (Locator sl) br s) as [[n|e] s1]; [|reflexivity].
  destruct (0 <? n)%nat; [|reflexivity].
  destruct (browser_call (LocatorPress (Locator sl) "Enter" 2000%Z) br s1)
    as [[[]|e] s2]; reflexivity.
Qed.

Lemma selector_fill_attempt {B} sel v (k : bool -> M B) br s :
  bind (try_except is_timeout
          (browser_call (LocatorFill (Locator sel) v 5000%Z);; ret true) (fun _ => ret false)) k br s
  = let s1 := snd (browser_call (LocatorFill (Locator sel) v 5000%Z) br s) in
    match fails br (trace s) (LocatorFill (Locator sel) v 5000%Z) with
    | None => k true br s1
    | Some e => if is_timeout e then k false br s1 else (Exc e, s1)
    end.
Proof.
  unfold try_except, bind, browser_call.
  destruct (fails br (trace s) (LocatorFill (Locator sel) v 5000%Z)) as [e|]; [|reflexivity].
  destruct (is_timeout e); reflexivity.
Qed.

Ltac focused_fallback_tac :=
  unfold focused_fill_or_fail, bind, try_except, ret, raise, input_failed;
  destruct (count (Locator ":focus") _ _) as [[?n|?e] ?s2]; [|reflexivity];
  destruct (0 <? _)%nat; [|reflexivity];
  destruct (browser_call (LocatorFill (Locator ":focus") _ 2000%Z) _ _) as [[[]|?e] ?s3];
  reflexivity.

(** C7 (amended): a missing or null [value] makes the input handler a
    silent no-op.  Otherwise, with a selector, the selector fill (5 s) is
    tried first: success ends the step; a timeout leads to the focused
    fallback; any other error is raised at once, with no focused attempt.
    Without a selector the focused fallback runs directly.  The focused
    fallback fills the focused element (2 s) when one exists and raises
    "Input operation failed" when none exists or counting or filling
    raises. *)
Theorem input_fallback_on_timeout :
  forall payload br s,
    (get payload "value" = VNone -> _perform_input payload br s = (Ok tt, s))
    /\ (get payload "value" <> VNone ->
        (forall sel, _build_selector payload = Ok (Some sel) -> sel <> "" ->
           let c := LocatorFill (Locator sel) (get payload "value") 5000%Z in
           let s1 := snd (browser_call c br s) in
           (fails br (trace s) c = None -> _perform_input payload br s = (Ok tt, s1))
           /\ (fails br (trace s) c = Some TimeoutError ->
                 _perform_input payload br s = focused_fill_or_fail (get payload "value") br s1)
           /\ (forall e, fails br (trace s) c = Some e -> e <> TimeoutError ->
                 _perform_input payload br s = (Exc e, s1)))
        /\ (_build_selector payload = Ok None ->
              _perform_input payload br s = focused_fill_or_fail (get payload "value") br s)).
Proof.
  intros p br s. split.
  - intros H. unfold _perform_input. cbv zeta. rewrite H. reflexivity.
  - intros Hv.
    assert (Hn : is_none (get p "value") = false).
    { destruct (get p "value"); [contradiction|reflexivity..]. }
    split.
    + intros sel Hsel Hne c s1.
      unfold _perform_input. cbv zeta. rewrite Hn. rewrite bind_lift, Hsel.
      unfold truthy_selector. apply String.eqb_neq in Hne. rewrite Hne.
      cbv beta iota. rewrite selector_fill_attempt. cbv zeta. fold c. fold s1.
      split; [|split].
      * intros Hf. rewrite Hf. reflexivity.
      * intros Hf. rewrite Hf. simpl is_timeout. cbv iota beta. focused_fallback_tac.
      * intros e Hf He. rewrite Hf.
        destruct e; try (exfalso; apply He; reflexivity); reflexivity.
    + intros Hsel. unfold _perform_input. cbv zeta. rewrite Hn. rewrite bind_lift, Hsel.
      simpl truthy_selector.
      unfold bind at 1, ret at 1. cbv iota beta. focused_fallback_tac.
Qed.

(** C4 (code bug): an [elementRect] whose [left] and [top] are numbers but
    whose [width] is [null] makes [_extract_coordinates] raise [TypeError]
    ([None / 2]) instead of giving a centre or no coordinates, and the
    hover handler with it. *)
Theorem element_rect_null_width_raises :
  let payload := VDict [("elementRect", VDict [("left", VNum 10%Q); ("top", VNum 20%Q);
                                              ("width", VNone); ("height", VNum 5%Q)])] in
  _extract_coordinates payload = Exc TypeError
  /\ (forall br s, fst (_perform_pointer_move payload br s) = Exc TypeError).
Proof. split; [reflexivity|intros br s; reflexivity]. Qed.

(** C5 (code bug): [CSS_ESCAPE_MAP] sends a space to a space, so the id
    ["foo bar"] gives the selector [#foo bar] (a descendant selector), not
    [#foo\ bar]; the class case gives [div.a.b]. *)
Theorem id_selector_space_not_escaped :
  _build_selector (VDict [("id", VStr "foo bar")]) = Ok (Some "#foo bar")
  /\ "#foo bar" <> "#foo" ++ str1 bs ++ " bar"
  /\ _build_selector (VDict [("className", VStr "a b"); ("tag", VStr "DIV")])
     = Ok (Some "div.a.b").
Proof. split; [reflexivity|split; [discriminate|reflexivity]]. Qed.


(** *** Strings *)

Lemma split_once_app c a r :
  has_char c a = false -> split_once c (a ++ String c r) = Some (a, r).
Proof.
  induction a as [|c' a IH]; simpl; intros H.
  - rewrite Ascii.eqb_refl. reflexivity.
  - apply orb_false_iff in H as [H1 H2]. rewrite H1, (IH H2). reflexivity.
Qed.

Lemma split_once_none c s : has_char c s = false -> split_once c s = None.
Proof.
  induction s as [|c' s IH]; simpl; intros H; [reflexivity|].
  apply orb_false_iff in H as [H1 H2]. rewrite H1, (IH H2). reflexivity.
Qed.

Lemma split_once_some c s a r :
  split_once c s = Some (a, r) -> has_char c a = false /\ s = a ++ String c r.
Proof.
  revert a r. induction s as [|c' s IH]; simpl; intros a r H; [discriminate|].
  destruct (Ascii.eqb_spec c c') as [<-|Hne].
  - injection H as <- <-. split; reflexivity.
  - destruct (split_once c s) as [[a' r']|]; [|discriminate].
    injection H as <- <-. destruct (IH a' r' eq_refl) as [H1 H2].
    simpl. apply Ascii.eqb_neq in Hne. rewrite Hne, H1, H2. split; reflexivity.
Qed.

Lemma split_once_none_has c s : split_once c s = None -> has_char c s = false.
Proof.
  induction s as [|c' s IH]; simpl; intros H; [reflexivity|].
  destruct (Ascii.eqb c c'); [discriminate|].
  destruct (split_once c s) as [[a b]|]; [discriminate|]. apply IH. reflexivity.
Qed.

(** X1: joining a category and a subject free of [':'] and any action with
    [':'] and splitting the result with [_split_event_type] gives the three
    parts back; the action keeps its own colons. *)
Theorem split_event_type_round_trip :
  forall category subject action,
    has_char ":" category = false -> has_char ":" subject = false ->
    _split_event_type (category ++ ":" ++ subject ++ ":" ++ action)
    = (category, subject, action).
Proof.
  intros a b c Ha Hb. unfold _split_event_type.
  change (":" ++ b ++ ":" ++ c) with (String ":" (b ++ String ":" c)).
  rewrite (split_once_app _ _ _ Ha), (split_once_app _ _ _ Hb). reflexivity.
Qed.

(** X2: [_split_event_type] never puts a [':'] in the category or the
    subject, and the event type is recovered from its parts: it is the
    category alone (no colon at all, subject and action empty), category and
    subject joined by one colon (action empty), or all three joined by
    colons. *)
Theorem split_event_type_parts :
  forall et,
    let '(category, subject, action) := _split_event_type et in
    has_char ":" category = false /\ has_char ":" subject = false
    /\ ((has_char ":" et = false /\ category = et /\ subject = "" /\ action = "")
        \/ (et = category ++ ":" ++ subject /\ action = "")
        \/ et = category ++ ":" ++ subject ++ ":" ++ action).
Proof.
  intros et. unfold _split_event_type.
  destruct (split_once ":" et) as [[a rest]|] eqn:E1.
  - apply split_once_some in E1 as [Ha Het].
    destruct (split_once ":" rest) as [[b c]|] eqn:E2.
    + apply split_once_some in E2 as [Hb Hrest].
      split; [exact Ha|split; [exact Hb|]]. right; right. rewrite Het, Hrest. reflexivity.
    + pose proof (split_once_none_has _ _ E2) as Hr.
      split; [exact Ha|split; [exact Hr|]]. right; left. split; [exact Het|reflexivity].
  - pose proof (split_once_none_has _ _ E1) as Hn.
    split; [exact Hn|split; [reflexivity|]]. left. split; [exact Hn|repeat split].
Qed.

Lemma rstrip_slash_snoc s : rstrip_slash (s ++ "/") = rstrip_slash s.
Proof.
  induction s as [|c s IH]; [reflexivity|]. simpl. rewrite IH. reflexivity.
Qed.

(** X3: trailing slashes never change the answer of [_urls_differ] on a
    non-empty current URL and a string target: appending a ["/"] to either
    side gives the same result. *)
Theorem urls_differ_ignores_trailing_slash :
  forall current target,
    current <> "" ->
    _urls_differ (current ++ "/") (VStr target) = _urls_differ current (VStr target)
    /\ _urls_differ current (VStr (target ++ "/")) = _urls_differ current (VStr target).
Proof.
  intros c t Hc. unfold _urls_differ.
  apply String.eqb_neq in Hc. rewrite Hc.
  assert (Hc' : String.eqb (c ++ "/") "" = false) by (destruct c; reflexivity).
  rewrite Hc', !rstrip_slash_snoc. split; reflexivity.
Qed.

Lemma string_app_assoc (a b c : string) : (a ++ b) ++ c = a ++ (b ++ c).
Proof. induction a as [|x a IH]; simpl; [reflexivity|rewrite IH; reflexivity]. Qed.

Lemma has_char_app c a b : has_char c (a ++ b) = has_char c a || has_char c b.
Proof.
  induction a as [|x a IH]; simpl; [reflexivity|]. rewrite IH, orb_assoc. reflexivity.
Qed.

(** X4: [_css_escape] works character by character: the escape of a
    concatenation is the concatenation of the escapes, and a string with no
    character of [CSS_ESCAPE_MAP] is left as it is. *)
Theorem css_escape_app_and_plain :
  forall a b,
    css_escape (a ++ b) = css_escape a ++ css_escape b
    /\ (all_chars (fun c => match escape_lookup CSS_ESCAPE_MAP c with
                            | None => true | Some _ => false end) a = true ->
        css_escape a = a).
Proof.
  intros a b. split.
  - induction a as [|c a IH]; simpl; [reflexivity|]. rewrite IH, string_app_assoc. reflexivity.
  - induction a as [|c a IH]; intros H; [reflexivity|].
    cbn [css_escape all_chars] in *.
    apply andb_true_iff in H as [H1 H2]. rewrite (IH H2). unfold escape_char.
    destruct (escape_lookup CSS_ESCAPE_MAP c); [discriminate|reflexivity].
Qed.

Lemma escape_char_no_control c :
  has_char (chr 9) (escape_char c) = false /\ has_char (chr 10) (escape_char c) = false
  /\ has_char (chr 12) (escape_char c) = false /\ has_char (chr 13) (escape_char c) = false.
Proof.
  destruct c as [[] [] [] [] [] [] [] []]; vm_compute; repeat split.
Qed.

(** X5: the output of [_css_escape] never holds a tab, a line feed, a form
    feed or a carriage return, whatever its input. *)
Theorem css_escape_no_control_whitespace :
  forall s,
    has_char (chr 9) (css_escape s) = false /\ has_char (chr 10) (css_escape s) = false
    /\ has_char (chr 12) (css_escape s) = false /\ has_char (chr 13) (css_escape s) = false.
Proof.
  induction s as [|c s IH]; [repeat split|]. simpl css_escape. rewrite !has_char_app.
  destruct (escape_char_no_control c) as (H1 & H2 & H3 & H4).
  destruct IH as (I1 & I2 & I3 & I4).
  rewrite H1, H2, H3, H4, I1, I2, I3, I4. repeat split.
Qed.

(** *** Selectors and coordinates *)

Lemma string_length_app (a b : string) :
  String.length (a ++ b) = String.length a + String.length b.
Proof. induction a as [|x a IH]; simpl; [reflexivity|rewrite IH; reflexivity]. Qed.

(** X6: a selector that [_build_selector] returns is never the empty
    string, so the [if selector:] tests of the click, input and submit
    handlers always take it. *)
Theorem built_selector_is_truthy :
  forall payload sel,
    _build_selector payload = Ok (Some sel) -> truthy_selector (Some sel) = Some sel.
Proof.
  intros p sel H.
  assert (Hne : sel <> "").
  { unfold _build_selector in H. cbv zeta in H.
    destruct (truthy (get p "id")).
    - injection H as <-. discriminate.
    - destruct (truthy (get p "className")); [|discriminate].
      destruct (map css_escape _) as [|c cs]; [discriminate|].
      destruct (if truthy (get p "tag") then _ else _) as [prefix|e]; [|discriminate].
      injection H as <-. intros Hp.
      apply (f_equal String.length) in Hp. rewrite string_length_app in Hp.
      destruct cs; simpl in Hp; [lia|].
      rewrite string_length_app in Hp. simpl in Hp. lia. }
  unfold truthy_selector. apply String.eqb_neq in Hne. rewrite Hne. reflexivity.
Qed.

(** X7: a payload with no [id], a [className] holding at least one class
    and a truthy [tag] that is not a string (a number, a list, a dict,
    [True]) makes [_build_selector] raise [AttributeError] (from
    [.lower()]); the submit handler then raises it before any browser
    call, and so do the click handler (when no coordinates resolve) and the
    input handler (when a [value] is present). *)
Theorem non_string_tag_aborts_selector_steps :
  forall payload,
    truthy (get payload "id") = false ->
    truthy (get payload "className") = true ->
    filter (fun part => negb (String.eqb part "")) (split_ws (py_str (get payload "className"))) <> [] ->
    truthy (get payload "tag") = true ->
    (forall t, get payload "tag" <> VStr t) ->
    _build_selector payload = Exc AttributeError
    /\ (forall br s, _perform_submit payload br s = (Exc AttributeError, s))
    /\ (forall br s, _extract_coordinates payload = Ok None ->
          _perform_pointer_click payload br s = (Exc AttributeError, s))
    /\ (forall br s, get payload "value" <> VNone ->
          _perform_input payload br s = (Exc AttributeError, s)).
Proof.
  intros p Hid Hcls Hparts Htag Hstr.
  assert (Hb : _build_selector p = Exc AttributeError).
  { unfold _build_selector. cbv zeta. rewrite Hid, Hcls, Htag.
    destruct (filter _ _) as [|part parts]; [contradiction|]. simpl map. cbv iota.
    unfold py_or. rewrite Htag.
    destruct (get p "tag") eqn:Et; try reflexivity. exfalso. apply (Hstr s). reflexivity. }
  split; [exact Hb|split; [|split]].
  - intros br s. unfold _perform_submit. rewrite bind_lift, Hb. reflexivity.
  - intros br s Hc. unfold _perform_pointer_click. rewrite bind_lift, Hc, bind_lift, Hb.
    reflexivity.
  - intros br s Hv. unfold _perform_input. cbv zeta.
    assert (Hn : is_none (get p "value") = false).
    { destruct (get p "value"); [contradiction|reflexivity..]. }
    rewrite Hn, bind_lift, Hb. reflexivity.
Qed.


(** X9: a valid [coordinates.client] point is the result, whatever else the
    payload holds; and numeric flat [x] and [y] make the extraction succeed
    with a point, so a malformed [elementRect] is then never looked at. *)
Theorem extract_coordinates_precedence :
  forall payload,
    (forall xy, point_xy (get (get payload "coordinates") "client") = Some xy ->
       _extract_coordinates payload = Ok (Some xy))
    /\ (forall x y, num_of (get payload "x") = Some x -> num_of (get payload "y") = Some y ->
          exists xy, _extract_coordinates payload = Ok (Some xy)).
Proof.
  intros p. split.
  - intros xy H. unfold _extract_coordinates. cbv zeta.
    destruct (get p "coordinates") as [| | | | |d]; try discriminate H.
    cbn [is_dict first_valid]. rewrite H. reflexivity.
  - intros x y Hx Hy. unfold _extract_coordinates. cbv zeta.
    match goal with
    | |- exists _, match ?m with Some _ => _ | None => _ end = _ => destruct m as [xy|]
    end.
    + exists xy. reflexivity.
    + rewrite Hx, Hy. exists (x, y). reflexivity.
Qed.

(** X10: when [coordinates] is a dict with no valid [client], [page] or
    [offset] point and a truthy [viewport] without a numeric [width], the
    payload's own [viewport] is never used to scale [relative]: the
    extraction gives what it gives with [coordinates] removed. *)
Theorem coordinates_viewport_shadows_payload_viewport :
  forall payload,
    let coords := get payload "coordinates" in
    is_dict coords = true ->
    first_valid coords ["client"; "page"; "offset"] = None ->
    truthy (get coords "viewport") = true ->
    num_of (get (get coords "viewport") "width") = None ->
    _extract_coordinates payload = _extract_coordinates (without_key "coordinates" payload).
Proof.
  intros p coords Hd Hf Ht Hw. subst coords.
  destruct (get p "coordinates") as [| | | | |d] eqn:Ec; try discriminate Hd.
  unfold _extract_coordinates. cbv zeta.
  rewrite (get_without_same _ _ _ Ec), !get_without_other by discriminate.
  rewrite Ec, Hf. change (is_dict (VDict d)) with true. cbv iota. unfold py_or. rewrite Ht.
  destruct (point_xy (get (VDict d) "relative")) as [[rx ry]|]; [|reflexivity].
  destruct (is_dict (get (VDict d) "viewport")); [|reflexivity].
  rewrite Hw. reflexivity.
Qed.

(** *** User-action handlers *)

(** X11: a click whose coordinates resolve to [(x, y)] moves the pointer
    there, waits 100 ms and clicks there, without building a selector; if
    the move raises, the step raises that error and no wait or click
    follows; otherwise it raises exactly when the click does. *)
Theorem click_with_coordinates_moves_waits_clicks :
  forall payload x y br s,
    _extract_coordinates payload = Ok (Some (x, y)) ->
    let tr := trace s in
    let r := _perform_pointer_click payload br s in
    match fails br tr (MouseMove x y) with
    | Some e => fst r = Exc e /\ trace (snd r) = (tr ++ [Call (MouseMove x y)])%list
    | None =>
        trace (snd r) = (tr ++ [Call (MouseMove x y); Sleep 100; Call (MouseClick x y)])%list
        /\ fst r = match fails br (tr ++ [Call (MouseMove x y); Sleep 100])%list (MouseClick x y) with
                   | Some e => Exc e
                   | None => Ok tt
                   end
    end.
Proof.
  intros p x y br s H tr r. subst r.
  unfold _perform_pointer_click. rewrite bind_lift, H.
  unfold bind, browser_call, sleep. subst tr. cbn [trace].
  destruct (fails br (trace s) (MouseMove x y)) as [e|]; [split; reflexivity|].
  cbn [trace snd fst]. rewrite <- !app_assoc. cbn [app].
  destruct (fails br (trace s ++ [Call (MouseMove x y); Sleep 100])%list (MouseClick x y));
    split; reflexivity.
Qed.

(** X12: a click with no resolvable coordinates uses the selector: with
    none it raises "No coordinates or selector available for click" and
    issues no browser call; with one it is exactly one locator click (5 s)
    on that selector, whose error, a timeout or any other, is the step's
    error. *)
Theorem click_without_coordinates :
  forall payload br s,
    _extract_coordinates payload = Ok None ->
    (_build_selector payload = Ok None ->
       _perform_pointer_click payload br s
       = (Exc (GenericException "No coordinates or selector available for click"), s))
    /\ (forall sel, _build_selector payload = Ok (Some sel) -> sel <> "" ->
          _perform_pointer_click payload br s
          = browser_call (LocatorClick (Locator sel) 5000%Z) br s).
Proof.
  intros p br s Hc. unfold _perform_pointer_click. rewrite bind_lift, Hc, bind_lift.
  split.
  - intros Hb. rewrite Hb. reflexivity.
  - intros sel Hb Hne. rewrite Hb. unfold truthy_selector.
    apply String.eqb_neq in Hne. rewrite Hne. apply try_except_reraise.
Qed.

(** X13: the scroll handler never raises on a dict payload: without numeric
    [x] and [y] it does nothing, and with them it makes one scroll call
    whose failure is swallowed.  A payload that is not a dict makes it
    raise [AttributeError] ([payload.get]) before any call. *)
Theorem scroll_is_best_effort :
  forall payload br s,
    (is_dict payload = false -> _perform_scroll payload br s = (Exc AttributeError, s))
    /\ (is_dict payload = true ->
        let x := get payload "x" in
        let y := get payload "y" in
        (is_num x && is_num y = false -> _perform_scroll payload br s = (Ok tt, s))
        /\ (is_num x && is_num y = true ->
            _perform_scroll payload br s
            = (Ok tt, snd (browser_call (EvaluateScroll x y) br s)))).
Proof.
  intros p br s. unfold _perform_scroll. split.
  - intros H. rewrite H. reflexivity.
  - intros H. rewrite H. split.
    + intros Hn. rewrite Hn. reflexivity.
    + intros Hn. rewrite Hn. unfold try_except, browser_call.
      destruct (fails br (trace s) (EvaluateScroll (get p "x") (get p "y"))); reflexivity.
Qed.

(** X14: the keydown handler does nothing for a missing or falsy [key];
    otherwise it presses the key, and only when the press raises does it
    type the key instead; it raises exactly when both the press and the
    typing raise, with the typing's error. *)
Theorem keydown_press_then_type :
  forall payload br s,
    let key := get payload "key" in
    (truthy key = false -> _perform_keydown payload br s = (Ok tt, s))
    /\ (truthy key = true ->
        let s1 := snd (browser_call (KeyboardPress key) br s) in
        match fails br (trace s) (KeyboardPress key) with
        | None => _perform_keydown payload br s = (Ok tt, s1)
        | Some _ => _perform_keydown payload br s = browser_call (KeyboardType key) br s1
        end).
Proof.
  intros p br s key. split.
  - intros H. unfold _perform_keydown. fold key. rewrite H. reflexivity.
  - intros H s1. subst s1. unfold _perform_keydown. fold key. rewrite H.
    change (negb true) with false. cbv iota. unfold try_except.
    assert (Er : fst (browser_call (KeyboardPress key) br s)
                 = match fails br (trace s) (KeyboardPress key) with
                   | Some e => Exc e | None => Ok tt end).
    { unfold browser_call. destruct (fails br (trace s) (KeyboardPress key)); reflexivity. }
    destruct (browser_call (KeyboardPress key) br s) as [r s'] eqn:B.
    simpl fst in Er. simpl snd. subst r.
    destruct (fails br (trace s) (KeyboardPress key)); reflexivity.
Qed.

(** *** State steps *)

(** X15: a [state:page:*] step never raises: [domcontentloaded] and
    [domcontentload] wait once for the [domcontentloaded] state, [loaded]
    and [load] wait once for the [load] state (15 s, a failed wait being
    swallowed), and any other page action does nothing. *)
Theorem page_load_step_waits_once :
  forall action payload br s,
    let wait := fun st => (Ok tt, snd (browser_call (WaitForLoadState st 15000%Z) br s)) in
    _handle_state_step "page" action payload br s
    = if String.eqb action "domcontentloaded" || String.eqb action "domcontentload"
      then wait "domcontentloaded"
      else if String.eqb action "loaded" || String.eqb action "load" then wait "load"
      else (Ok tt, s).
Proof.
  intros a p br s wait. subst wait. unfold _handle_state_step.
  change (String.eqb "page" "browser") with false. rewrite andb_false_l.
  change (String.eqb "page" "page") with true. cbv iota beta.
  unfold _safe_wait_for_load, try_except, browser_call.
  destruct (String.eqb a "domcontentloaded" || String.eqb a "domcontentload");
    [|destruct (String.eqb a "loaded" || String.eqb a "load"); [|reflexivity]];
    match goal with |- context [fails br (trace s) ?c] => destruct (fails br (trace s) c) end;
    reflexivity.
Qed.

Lemma safe_wait_returns st br s : fst (_safe_wait_for_load st br s) = Ok tt.
Proof.
  unfold _safe_wait_for_load, try_except, browser_call.
  destruct (fails br (trace s) (WaitForLoadState st 15000%Z)); reflexivity.
Qed.

Lemma navigate_then_flag_returns (b : bool) url br s :
  bind (if b then _perform_spa_navigation url else _safe_goto url) (fun _ : unit => set_navigation_done) br s
  = (Ok tt, mkstate (page_url (snd ((if b then _perform_spa_navigation url else _safe_goto url) br s)))
                    true
                    (trace (snd ((if b then _perform_spa_navigation url else _safe_goto url) br s)))).
Proof.
  assert (Hnav : fst ((if b then _perform_spa_navigation url else _safe_goto url) br s) = Ok tt).
  { destruct b; [apply spa_navigation_returns|apply safe_goto_returns]. }
  unfold bind.
  destruct ((if b then _perform_spa_navigation url else _safe_goto url) br s) as [[[]|e] s'];
    [reflexivity|discriminate Hnav].
Qed.

(** X16: a state step raises only [AttributeError], and only for a
    [browser:navigated] step whose [url] is truthy but not a string, once
    the navigation flag is set on a page with a non-empty URL (the
    [rstrip] of [_urls_differ]); it then leaves the state as it was. *)
Theorem state_step_raises_only_on_non_string_url :
  forall subject action payload br s e,
    fst (_handle_state_step subject action payload br s) = Exc e ->
    e = AttributeError /\ subject = "browser" /\ action = "navigated"
    /\ initial_navigation_done s = true /\ page_url s <> ""
    /\ (forall t, get payload "url" <> VStr t)
    /\ snd (_handle_state_step subject action payload br s) = s.
Proof.
  intros sub a p br s e H.
  destruct (_handle_state_step sub a p br s) as [r s'] eqn:E. simpl fst in H. simpl snd. subst r.
  unfold _handle_state_step in E.
  destruct (String.eqb_spec sub "browser") as [->|Hsub];
    [destruct (String.eqb_spec a "navigated") as [->|Ha]|]; cbn [andb] in E.
  - destruct (negb (truthy (get p "url")) || py_eq_str (get p "url") "about:blank");
      [discriminate E|].
    unfold bind at 1, get_state in E. cbv beta iota in E.
    destruct (initial_navigation_done s) eqn:Hd; cbn [negb] in E.
    + unfold bind at 1, lift in E. unfold _urls_differ in E.
      destruct (String.eqb_spec (page_url s) "") as [Hp|Hp].
      * rewrite navigate_then_flag_returns in E. discriminate E.
      * destruct (get p "url") as [| | |t| |] eqn:Eu.
        all: try (destruct (negb _); [rewrite navigate_then_flag_returns in E|]; discriminate E).
        all: injection E as <- <-.
        all: repeat split; auto; intros t Ht; discriminate Ht.
    + unfold bind at 1, ret in E. rewrite navigate_then_flag_returns in E. discriminate E.
  - destruct (String.eqb "browser" "page"); [|discriminate E].
    destruct (_ || _).
    + pose proof (safe_wait_returns "domcontentloaded" br s) as W. rewrite E in W. discriminate W.
    + destruct (_ || _); [|discriminate E].
      pose proof (safe_wait_returns "load" br s) as W. rewrite E in W. discriminate W.
  - destruct (String.eqb sub "page"); [|discriminate E].
    destruct (_ || _).
    + pose proof (safe_wait_returns "domcontentloaded" br s) as W. rewrite E in W. discriminate W.
    + destruct (_ || _); [|discriminate E].
      pose proof (safe_wait_returns "load" br s) as W. rewrite E in W. discriminate W.
Qed.

(** *** Steps and the replay *)

(** X17: a step that no handler recognises is skipped: no browser call, no
    error, the state unchanged.  That is a category other than [state] and
    [action], an [action] step whose subject is not [user], a [user] action
    other than click, hover, scroll, input, keydown and submit, a [state]
    subject other than [browser] and [page], a [browser] action other than
    [navigated], and a [page] action other than the four load events. *)
Theorem unrecognised_steps_are_skipped :
  forall step br s,
    let '(category, subject, action) := _split_event_type (event_type step) in
    ((category <> "state" /\ (category <> "action" \/ subject <> "user"))
     \/ (category = "action" /\ subject = "user"
         /\ ~ In action ["click"; "hover"; "scroll"; "input"; "keydown"; "submit"])
     \/ (category = "state" /\ subject <> "browser" /\ subject <> "page")
     \/ (category = "state" /\ subject = "browser" /\ action <> "navigated")
     \/ (category = "state" /\ subject = "page"
         /\ ~ In action ["domcontentloaded"; "domcontentload"; "loaded"; "load"])) ->
    _run_step step br s = (Ok tt, s).
Proof.
  intros step br s. unfold _run_step.
  destruct (_split_event_type (event_type step)) as [[c sub] a].
  intros [(Hc & Hu)|[(-> & -> & Hn)|[(-> & Hb & Hp)|[(-> & -> & Ha)|(-> & -> & Hn)]]]].
  - apply String.eqb_neq in Hc. rewrite Hc.
    destruct Hu as [Hu|Hu]; apply String.eqb_neq in Hu; rewrite Hu;
      [|rewrite andb_false_r]; reflexivity.
  - cbn [String.eqb Ascii.eqb Bool.eqb andb]. unfold _handle_user_action.
    repeat match goal with
           | |- context [String.eqb a ?k] =>
               destruct (String.eqb_spec a k) as [->|?];
                 [exfalso; apply Hn; simpl; tauto|]
           end.
    reflexivity.
  - change (String.eqb "state" "state") with true. cbv iota. unfold _handle_state_step.
    apply String.eqb_neq in Hb, Hp. rewrite Hb, Hp. reflexivity.
  - change (String.eqb "state" "state") with true. cbv iota. unfold _handle_state_step.
    apply String.eqb_neq in Ha. rewrite Ha. reflexivity.
  - change (String.eqb "state" "state") with true. cbv iota. unfold _handle_state_step.
    change (String.eqb "page" "browser") with false. rewrite andb_false_l.
    change (String.eqb "page" "page") with true. cbv iota.
    repeat match goal with
           | |- context [String.eqb a ?k] =>
               destruct (String.eqb_spec a k) as [->|?];
                 [exfalso; apply Hn; simpl; tauto|]
           end.
    reflexivity.
Qed.

Lemma extends_refl s : extends s s.
Proof. split; [exists []; symmetry; apply app_nil_r|auto]. Qed.

Lemma extends_trans s1 s2 s3 : extends s1 s2 -> extends s2 s3 -> extends s1 s3.
Proof.
  intros [[n1 H1] F1] [[n2 H2] F2]. split.
  - exists (n1 ++ n2)%list. rewrite H2, H1, app_assoc. reflexivity.
  - auto.
Qed.

Lemma grows_ret {A} (a : A) : grows (ret a).
Proof. intros br s. apply extends_refl. Qed.

Lemma grows_raise {A} e : grows (@raise A e).
Proof. intros br s. apply extends_refl. Qed.

Lemma grows_lift {A} (r : res A) : grows (lift r).
Proof. intros br s. apply extends_refl. Qed.

Lemma grows_get_state : grows get_state.
Proof. intros br s. apply extends_refl. Qed.

Lemma grows_set_navigation_done : grows set_navigation_done.
Proof. intros br s. split; [exists []; symmetry; apply app_nil_r|reflexivity]. Qed.

Lemma grows_browser_call c : grows (browser_call c).
Proof.
  intros br s. unfold browser_call.
  destruct (fails br (trace s) c); (split; [eexists; reflexivity|auto]).
Qed.

Lemma grows_count l : grows (count l).
Proof.
  intros br s. unfold count. pose proof (grows_browser_call (LocatorCount l) br s) as H.
  destruct (browser_call (LocatorCount l) br s) as [[]] ; exact H.
Qed.

Lemma grows_sleep ms : grows (sleep ms).
Proof. intros br s. split; [eexists; reflexivity|auto]. Qed.

Lemma grows_bind {A B} (m : M A) (k : A -> M B) :
  grows m -> (forall a, grows (k a)) -> grows (bind m k).
Proof.
  intros Hm Hk br s. unfold bind. pose proof (Hm br s) as H1.
  destruct (m br s) as [[a|e] s1]; [|exact H1].
  exact (extends_trans _ _ _ H1 (Hk a br s1)).
Qed.

Lemma grows_try {A} catches (m : M A) h :
  grows m -> (forall e, grows (h e)) -> grows (try_except catches m h).
Proof.
  intros Hm Hh br s. unfold try_except. pose proof (Hm br s) as H1.
  destruct (m br s) as [[a|e] s1]; [exact H1|].
  destruct (catches e); [exact (extends_trans _ _ _ H1 (Hh e br s1))|exact H1].
Qed.

Lemma grows_attempt {A} (m : M A) : grows m -> grows (attempt m).
Proof.
  intros Hm br s. unfold attempt. pose proof (Hm br s) as H1.
  destruct (m br s) as [r s1]. exact H1.
Qed.

Create HintDb grows_db.
#[local] Hint Resolve grows_ret grows_raise grows_lift grows_get_state grows_set_navigation_done
  grows_browser_call grows_count grows_sleep : grows_db.

Ltac grows_tac :=
  repeat match goal with
         | |- forall _, _ => intro
         | |- grows (bind _ _) => apply grows_bind
         | |- grows (try_except _ _ _) => apply grows_try
         | |- grows (match ?x with _ => _ end) => destruct x
         | |- grows _ => solve [eauto with grows_db]
         end.

Lemma grows_run_step step : grows (_run_step step).
Proof.
  unfold _run_step. destruct (_split_event_type (event_type step)) as [[c sub] a].
  destruct (String.eqb c "state").
  - unfold _handle_state_step, _perform_spa_navigation, _safe_goto, _safe_wait_for_load.
    grows_tac.
  - destruct (String.eqb c "action" && String.eqb sub "user"); [|grows_tac].
    unfold _handle_user_action, _perform_pointer_click, _perform_pointer_move, _perform_scroll,
      _perform_input, _perform_keydown, _perform_submit.
    grows_tac.
Qed.

(** X18: a replay only adds to the trace, and never clears the navigation
    flag: whatever the trajectory and the page do, the trace at the end
    extends the trace at the start, and a flag that was set stays set. *)
Theorem run_extends_trace_keeps_flag :
  forall run_human_trajectory trajectory br s,
    let s' := snd (run run_human_trajectory trajectory br s) in
    (exists new, trace s' = (trace s ++ new)%list)
    /\ (initial_navigation_done s = true -> initial_navigation_done s' = true).
Proof.
  intros h traj br s s'. subst s'.
  assert (G : grows (run h traj)).
  { unfold run, preset_navigation_done. apply grows_bind; [grows_tac|intros _].
    induction traj as [|step rest IH]; simpl replay_steps.
    - apply grows_ret.
    - apply grows_bind; [apply grows_attempt, grows_run_step|].
      intros [u|e]; [apply grows_bind; [apply grows_sleep|intros _; exact IH]|apply grows_ret]. }
  exact (G br s).
Qed.

(** X19: a replay started on a page that already shows a URL (non-empty,
    not [about:blank]) skips a leading [state:browser:navigated] step whose
    target is that URL up to trailing slashes: the step issues no browser
    call, only the pacing sleep follows, and the replay goes on with the
    rest of the trajectory. *)
Theorem run_skips_leading_navigation_to_current_page :
  forall run_human_trajectory id payload target rest br s,
    page_url s <> "" -> page_url s <> "about:blank" ->
    get payload "url" = VStr target ->
    rstrip_slash (page_url s) = rstrip_slash target ->
    run run_human_trajectory (mkstep id "state:browser:navigated" payload :: rest) br s
    = run run_human_trajectory rest br
        (mkstate (page_url s) true (trace s ++ [Sleep (base_delay_of run_human_trajectory)])).
Proof.
  intros h i p t rest br s Hne Hnb Hu Hr.
  assert (Hpre : forall s0, page_url s0 = page_url s ->
            preset_navigation_done br s0 = (Ok tt, mkstate (page_url s) true (trace s0))).
  { intros s0 E. unfold preset_navigation_done, bind, get_state. cbv beta iota.
    rewrite E. apply String.eqb_neq in Hne, Hnb. rewrite Hne, Hnb.
    unfold set_navigation_done. cbn [negb andb]. rewrite E. reflexivity. }
  unfold run at 1. unfold bind at 1. rewrite (Hpre s eq_refl).
  unfold replay_steps; fold replay_steps. unfold bind at 1, attempt.
  assert (Hstep : _run_step (mkstep i "state:browser:navigated" p) br (mkstate (page_url s) true (trace s))
                  = (Ok tt, mkstate (page_url s) true (trace s))).
  { unfold _run_step. cbn [event_type event_data_json].
    change (_split_event_type "state:browser:navigated") with ("state", "browser", "navigated").
    cbv iota. change (String.eqb "state" "state") with true. cbv iota.
    unfold _handle_state_step. rewrite Hu.
    change (String.eqb "browser" "browser" && String.eqb "navigated" "navigated") with true.
    cbv iota.
    destruct (negb (truthy (VStr t)) || py_eq_str (VStr t) "about:blank"); [reflexivity|].
    unfold bind, get_state, lift, _urls_differ. cbn [initial_navigation_done page_url negb].
    apply String.eqb_neq in Hne. rewrite Hne, Hr, String.eqb_refl. reflexivity. }
  rewrite Hstep. unfold bind at 1, sleep. cbn [page_url initial_navigation_done trace].
  unfold run, bind at 1.
  rewrite (Hpre (mkstate (page_url s) true (trace s ++ [Sleep (base_delay_of h)])) eq_refl).
  destruct h; reflexivity.
Qed.

(** X20: SPA navigation never raises.  It makes one [pushState] call; when
    that call succeeds it waits 300 ms, and when it raises it falls back to
    exactly one [goto] of the same URL (whose own failure is swallowed). *)
Theorem spa_navigation_trace :
  forall url br s,
    let r := _perform_spa_navigation url br s in
    fst r = Ok tt
    /\ trace (snd r)
       = match fails br (trace s) (EvaluatePushState url) with
         | None => (trace s ++ [Call (EvaluatePushState url); Sleep 300])%list
         | Some _ => (trace s ++ [Call (EvaluatePushState url); Call (Goto url)])%list
         end.
Proof.
  intros url br s r. subst r. split; [apply spa_navigation_returns|].
  unfold _perform_spa_navigation, _safe_goto, try_except, bind, browser_call, sleep.
  destruct (fails br (trace s) (EvaluatePushState url)); cbn [trace snd];
    [destruct (fails br _ (Goto url))|]; cbn [trace snd]; rewrite <- app_assoc; reflexivity.
Qed.

(** X21: a [state:browser:navigated] step with a present [url] other than
    [about:blank], run before the first navigation on a page showing [""]
    or [about:blank], issues exactly one [goto] to that URL (never a
    [pushState]), never raises, and sets the navigation flag. *)
Theorem first_navigation_from_blank_page_is_goto :
  forall payload br s,
    initial_navigation_done s = false ->
    (page_url s = "" \/ page_url s = "about:blank") ->
    truthy (get payload "url") = true ->
    py_eq_str (get payload "url") "about:blank" = false ->
    let url := get payload "url" in
    _handle_state_step "browser" "navigated" payload br s
    = (Ok tt, mkstate (url_after br (trace s) (Goto url) (page_url s)) true
                      (trace s ++ [Call (Goto url)])%list).
Proof.
  intros p br s Hd Hb Ht Hn. cbv zeta. unfold _handle_state_step.
  change (String.eqb "browser" "browser" && String.eqb "navigated" "navigated") with true.
  cbv iota zeta. rewrite Ht, Hn. cbn [negb orb].
  unfold bind at 1, get_state. cbv beta iota. rewrite Hd. cbn [negb].
  unfold bind at 1, ret. cbv beta iota.
  assert (Hspa : _is_spa_route_change (page_url s) (get p "url") = false).
  { unfold _is_spa_route_change. destruct Hb as [-> | ->]; reflexivity. }
  rewrite Hspa. unfold bind, _safe_goto, try_except, browser_call.
  destruct (fails br (trace s) (Goto (get p "url"))); reflexivity.
Qed.

(** *** The SPA heuristic and fragments *)

Lemma lstrip_c0_app_hash a b : lstrip_c0 (a ++ String "#" b) = lstrip_c0 a ++ String "#" b.
Proof.
  induction a as [|c a IH]; [reflexivity|]. simpl. destruct (is_c0_or_space c); [exact IH|reflexivity].
Qed.

Lemma remove_char_app c a b : remove_char c (a ++ b) = remove_char c a ++ remove_char c b.
Proof.
  induction a as [|x a IH]; [reflexivity|]. simpl. destruct (Ascii.eqb c x); simpl; rewrite IH; reflexivity.
Qed.

Lemma has_char_lstrip c s : has_char c s = false -> has_char c (lstrip_c0 s) = false.
Proof.
  induction s as [|x s IH]; simpl; [reflexivity|]. intros H.
  apply orb_false_iff in H as [H1 H2]. destruct (is_c0_or_space x); [exact (IH H2)|].
  simpl. rewrite H1, H2. reflexivity.
Qed.

Lemma has_char_remove c d s : has_char c s = false -> has_char c (remove_char d s) = false.
Proof.
  induction s as [|x s IH]; simpl; [reflexivity|]. intros H.
  apply orb_false_iff in H as [H1 H2]. destruct (Ascii.eqb d x); simpl; [exact (IH H2)|].
  rewrite H1, (IH H2). reflexivity.
Qed.

Lemma has_char_substring c n m s : has_char c s = false -> has_char c (substring n m s) = false.
Proof.
  revert n m. induction s as [|x s IH]; intros n m H; [destruct n, m; reflexivity|].
  simpl in H. apply orb_false_iff in H as [H1 H2].
  destruct n, m; simpl; try reflexivity; try rewrite H1; try apply IH; auto.
Qed.

Lemma has_char_split_netloc c s :
  has_char c s = false -> has_char c (snd (split_netloc s)) = false.
Proof.
  induction s as [|x s IH]; [reflexivity|]. intros H.
  change (split_netloc (String x s))
    with (if has_char x "/?#" then ("", String x s) else let (a, b) := split_netloc s in (String x a, b)).
  destruct (has_char x "/?#"); [exact H|].
  simpl in H. apply orb_false_iff in H as [H1 H2].
  destruct (split_netloc s) as [a b]. exact (IH H2).
Qed.

Lemma find_char_app c u w :
  find_char c (u ++ w)
  = match find_char c u with
    | Some i => Some i
    | None => option_map (Nat.add (String.length u)) (find_char c w)
    end.
Proof.
  induction u as [|x u IH]; simpl.
  - destruct (find_char c w); reflexivity.
  - destruct (Ascii.eqb c x); [reflexivity|]. rewrite IH.
    destruct (find_char c u); [reflexivity|]. destruct (find_char c w); reflexivity.
Qed.

Lemma find_char_lt c u i : find_char c u = Some i -> i < String.length u.
Proof.
  revert i. induction u as [|x u IH]; simpl; intros i H; [discriminate|].
  destruct (Ascii.eqb c x); [injection H as <-; lia|].
  destruct (find_char c u) as [j|]; [|discriminate]. injection H as <-.
  specialize (IH j eq_refl). lia.
Qed.

Lemma substring_full s : substring 0 (String.length s) s = s.
Proof. induction s as [|x s IH]; simpl; [reflexivity|rewrite IH; reflexivity]. Qed.

Lemma substring_prefix_app u w i :
  i <= String.length u -> substring 0 i (u ++ w) = substring 0 i u.
Proof.
  revert i. induction u as [|x u IH]; intros i H; simpl in H.
  - assert (i = 0) as -> by lia. destruct w; reflexivity.
  - destruct i; [reflexivity|]. simpl. rewrite IH by lia. reflexivity.
Qed.

Lemma substring_suffix_app u w n :
  n <= String.length u ->
  substring n (String.length (u ++ w) - n) (u ++ w) = substring n (String.length u - n) u ++ w.
Proof.
  revert n. induction u as [|x u IH]; intros n H; simpl in H.
  - assert (n = 0) as -> by lia. simpl. rewrite Nat.sub_0_r, substring_full. reflexivity.
  - destruct n.
    + simpl. rewrite !substring_full. reflexivity.
    + simpl. apply IH. lia.
Qed.

Lemma substring_past_app u y n :
  substring 0 (String.length u + n) (u ++ y) = u ++ substring 0 n y.
Proof. induction u as [|x u IH]; simpl; [reflexivity|rewrite IH; reflexivity]. Qed.

Lemma all_chars_app f a b : all_chars f (a ++ b) = all_chars f a && all_chars f b.
Proof. induction a as [|x a IH]; simpl; [reflexivity|rewrite IH, andb_assoc; reflexivity]. Qed.

(** The scheme step of [urlsplit] commutes with appending a fragment. *)
Lemma scheme_step_app_hash u w :
  has_char "#" u = false ->
  (match find_char ":" (u ++ String "#" w), u ++ String "#" w with
   | Some i, String c0 _ =>
       if (0 <? i)%nat && is_ascii_alpha c0
          && all_chars is_scheme_char (substring 0 i (u ++ String "#" w))
       then (lower (substring 0 i (u ++ String "#" w)),
             substring (S i) (String.length (u ++ String "#" w) - S i) (u ++ String "#" w))
       else ("", u ++ String "#" w)
   | _, _ => ("", u ++ String "#" w)
   end)
  = let '(sch, rest) :=
      match find_char ":" u, u with
      | Some i, String c0 _ =>
          if (0 <? i)%nat && is_ascii_alpha c0 && all_chars is_scheme_char (substring 0 i u)
          then (lower (substring 0 i u), substring (S i) (String.length u - S i) u)
          else ("", u)
      | _, _ => ("", u)
      end in (sch, rest ++ String "#" w).
Proof.
  intros Hu. rewrite find_char_app.
  destruct (find_char ":" u) as [i|] eqn:Ef.
  - pose proof (find_char_lt _ _ _ Ef) as Hi.
    destruct u as [|c0 u']; [simpl in Hi; lia|].
    rewrite (substring_prefix_app _ _ i) by lia.
    change (String c0 u' ++ String "#" w) with (String c0 (u' ++ String "#" w)).
    cbv beta iota.
    destruct ((0 <? i)%nat && is_ascii_alpha c0 && all_chars is_scheme_char (substring 0 i (String c0 u')));
      [|reflexivity].
    change (String c0 (u' ++ String "#" w)) with (String c0 u' ++ String "#" w).
    rewrite substring_suffix_app by lia. reflexivity.
  - simpl find_char at 1. change (Ascii.eqb ":" "#") with false. cbv iota.
    destruct (find_char ":" w) as [j|]; [|destruct u; reflexivity].
    simpl option_map. replace (String.length u + S j) with (String.length u + S j) by reflexivity.
    rewrite (substring_past_app u (String "#" w) (S j)).
    rewrite all_chars_app.
    assert (Hs : all_chars is_scheme_char (substring 0 (S j) (String "#" w)) = false)
      by reflexivity.
    rewrite Hs, andb_false_r. destruct (u ++ String "#" w); [reflexivity|].
    rewrite andb_false_r. reflexivity.
Qed.

Lemma split_netloc_app_hash r w :
  has_char "#" r = false ->
  split_netloc (r ++ String "#" w) = let '(a, b) := split_netloc r in (a, b ++ String "#" w).
Proof.
  induction r as [|x r IH]; intros H; [reflexivity|].
  simpl in H. apply orb_false_iff in H as [H1 H2].
  change (String x r ++ String "#" w) with (String x (r ++ String "#" w)).
  change (split_netloc (String x (r ++ String "#" w)))
    with (if has_char x "/?#" then ("", String x (r ++ String "#" w))
          else let (a, b) := split_netloc (r ++ String "#" w) in (String x a, b)).
  change (split_netloc (String x r))
    with (if has_char x "/?#" then ("", String x r) else let (a, b) := split_netloc r in (String x a, b)).
  destruct (has_char x "/?#"); [reflexivity|].
  rewrite (IH H2). destruct (split_netloc r). reflexivity.
Qed.

(** The netloc step of [urlsplit] commutes with appending a fragment. *)
Lemma netloc_step_app_hash x w :
  has_char "#" x = false ->
  (match x ++ String "#" w with
   | String "/" (String "/" rest) => split_netloc rest
   | _ => ("", x ++ String "#" w)
   end)
  = let '(n, u4) := match x with
                    | String "/" (String "/" rest) => split_netloc rest
                    | _ => ("", x)
                    end in (n, u4 ++ String "#" w).
Proof.
  intros H. destruct x as [|c0 [|c1 r]]; [reflexivity| |].
  - destruct c0 as [[] [] [] [] [] [] [] []]; reflexivity.
  - destruct c0 as [[] [] [] [] [] [] [] []]; try reflexivity.
    destruct c1 as [[] [] [] [] [] [] [] []]; try reflexivity.
    simpl in H. simpl app. apply split_netloc_app_hash. exact H.
Qed.

Lemma scheme_step_no_hash u :
  has_char "#" u = false ->
  has_char "#" (snd (match find_char ":" u, u with
                     | Some i, String c0 _ =>
                         if (0 <? i)%nat && is_ascii_alpha c0 && all_chars is_scheme_char (substring 0 i u)
                         then (lower (substring 0 i u), substring (S i) (String.length u - S i) u)
                         else ("", u)
                     | _, _ => ("", u)
                     end)) = false.
Proof.
  intros H. destruct (find_char ":" u); [|exact H].
  destruct u as [|c0 u']; [exact H|].
  destruct (_ && _ && _); [apply has_char_substring|]; exact H.
Qed.

Lemma netloc_step_no_hash x :
  has_char "#" x = false ->
  has_char "#" (snd (match x with
                     | String "/" (String "/" rest) => split_netloc rest
                     | _ => ("", x)
                     end)) = false.
Proof.
  intros H. destruct x as [|c0 r]; [exact H|].
  destruct c0 as [[] [] [] [] [] [] [] []]; try exact H.
  destruct r as [|c1 r]; [exact H|].
  destruct c1 as [[] [] [] [] [] [] [] []]; try exact H.
  apply has_char_split_netloc. simpl in H. exact H.
Qed.

(** [urlsplit] of a URL with no ['#'] followed by a fragment: the
    components of the URL, with that fragment. *)
Lemma urlsplit_app_fragment t f :
  has_char "#" t = false ->
  urlsplit (t ++ String "#" f)
  = match urlsplit t with
    | Some (sch, net, p, q, _) =>
        Some (sch, net, p, q, remove_char (chr 10) (remove_char (chr 13) (remove_char (chr 9) f)))
    | None => None
    end.
Proof.
  intros Ht. unfold urlsplit. cbv zeta.
  rewrite lstrip_c0_app_hash, !remove_char_app.
  change (remove_char (chr 9) (String "#" f)) with (String "#" (remove_char (chr 9) f)).
  change (remove_char (chr 13) (String "#" (remove_char (chr 9) f)))
    with (String "#" (remove_char (chr 13) (remove_char (chr 9) f))).
  change (remove_char (chr 10) (String "#" (remove_char (chr 13) (remove_char (chr 9) f))))
    with (String "#" (remove_char (chr 10) (remove_char (chr 13) (remove_char (chr 9) f)))).
  set (w := remove_char (chr 10) (remove_char (chr 13) (remove_char (chr 9) f))).
  set (u := remove_char (chr 10) (remove_char (chr 13) (remove_char (chr 9) (lstrip_c0 t)))).
  assert (Hu : has_char "#" u = false).
  { subst u. apply has_char_remove, has_char_remove, has_char_remove, has_char_lstrip. exact Ht. }
  rewrite (scheme_step_app_hash u w Hu).
  pose proof (scheme_step_no_hash u Hu) as Hr.
  destruct (match find_char ":" u, u with
            | Some i, String c0 _ =>
                if (0 <? i)%nat && is_ascii_alpha c0 && all_chars is_scheme_char (substring 0 i u)
                then (lower (substring 0 i u), substring (S i) (String.length u - S i) u)
                else ("", u)
            | _, _ => ("", u)
            end) as [sch rest].
  simpl snd in Hr. cbv beta iota.
  rewrite (netloc_step_app_hash rest w Hr).
  pose proof (netloc_step_no_hash rest Hr) as H4.
  destruct (match rest with
            | String "/" (String "/" r) => split_netloc r
            | _ => ("", rest)
            end) as [net u4].
  simpl snd in H4. cbv beta iota.
  rewrite (split_once_app _ _ _ H4), (split_once_none _ _ H4).
  destruct (_ || _); [reflexivity|].
  destruct (_ && _ && _); [reflexivity|].
  destruct (split_once "?" u4) as [[u6 q]|].
  - destruct (_ && _ && _); reflexivity.
  - destruct (_ && _ && _); reflexivity.
Qed.

(** X22: the SPA heuristic ignores the target's fragment: for a target URL
    without ['#'], appending ["#"] and any fragment to it leaves
    [_is_spa_route_change] unchanged, whatever the current URL. *)
Theorem spa_route_change_ignores_target_fragment :
  forall current target frag,
    has_char "#" target = false ->
    _is_spa_route_change current (VStr (target ++ "#" ++ frag))
    = _is_spa_route_change current (VStr target).
Proof.
  intros c t f Ht.
  assert (Hp : urlparse (t ++ "#" ++ f)
               = match urlparse t with
                 | Some p => Some (mkparse (scheme p) (netloc p) (path p) (params p) (query p)
                                     (remove_char (chr 10) (remove_char (chr 13) (remove_char (chr 9) f))))
                 | None => None
                 end).
  { unfold urlparse. change ("#" ++ f) with (String "#" f).
    rewrite (urlsplit_app_fragment t f Ht).
    destruct (urlsplit t) as [[[[[sch net] u] q] fr]|]; [|reflexivity].
    destruct (existsb (String.eqb sch) uses_params && has_char ";" u); [|reflexivity].
    destruct (_splitparams u); reflexivity. }
  unfold _is_spa_route_change. rewrite Hp.
  destruct (urlparse t) as [pt|]; [reflexivity|].
  destruct (String.eqb c "" || String.eqb c "about:blank"); [reflexivity|].
  destruct (urlparse c); reflexivity.
Qed.

End Replay.

(** ** Witnesses *)

Lemma spa_route_change_classification_witness :
  _is_spa_route_change accept_netloc accept_netloc
    "https://shop.example/cart" (VStr "https://shop.example/cart#reviews") = true
  /\ _is_spa_route_change accept_netloc accept_netloc
       "https://shop.example/cart" (VStr "https://shop.example/checkout") = true.
Proof.
  assert (H1 : "https://shop.example/cart" <> "") by discriminate.
  assert (H2 : "https://shop.example/cart" <> "about:blank") by discriminate.
  assert (Hp : "/cart" <> "/checkout") by discriminate.
  split.
  - destruct (spa_route_change_classification accept_netloc accept_netloc
                "https://shop.example/cart" "https://shop.example/cart#reviews") as [_ H].
    destruct (H H1 H2) as [_ H'].
    exact (proj1 (proj2 (H' (mkparse "https" "shop.example" "/cart" "" "" "")
                            (mkparse "https" "shop.example" "/cart" "" "" "reviews")
                            eq_refl eq_refl)) eq_refl eq_refl eq_refl eq_refl).
  - destruct (spa_route_change_classification accept_netloc accept_netloc
                "https://shop.example/cart" "https://shop.example/checkout") as [_ H].
    destruct (H H1 H2) as [_ H'].
    rewrite (proj2 (proj2 (H' (mkparse "https" "shop.example" "/cart" "" "" "")
                              (mkparse "https" "shop.example" "/checkout" "" "" "")
                              eq_refl eq_refl)) eq_refl eq_refl
                (or_introl Hp)).
    reflexivity.
Defined.

Lemma navigation_skipped_when_url_unchanged_witness :
  _handle_state_step accept_netloc accept_netloc "browser" "navigated"
    (VDict [("url", VStr "https://shop.example/cart")]) quiet_browser
    (mkstate "https://shop.example/cart/" true [])
  = (Ok tt, mkstate "https://shop.example/cart/" true []).
Proof.
  apply (navigation_skipped_when_url_unchanged accept_netloc accept_netloc quiet_browser _ _
           "https://shop.example/cart");
    [reflexivity|discriminate|reflexivity|reflexivity].
Defined.

Lemma navigation_flag_after_navigated_witness :
  initial_navigation_done
    (snd (_handle_state_step accept_netloc accept_netloc "browser" "navigated"
            (VDict [("url", VStr "https://shop.example/")]) quiet_browser blank_state))
  = true.
Proof.
  exact (proj2 (navigation_flag_after_navigated accept_netloc accept_netloc quiet_browser blank_state
                  (VDict [("url", VStr "https://shop.example/")])) eq_refl eq_refl).
Defined.

Lemma hover_is_one_pointer_move_witness :
  _perform_pointer_move (VDict [("x", VNum 1%Q); ("y", VNum 2%Q)]) quiet_browser blank_state
  = browser_call (MouseMove 1%Q 2%Q) quiet_browser blank_state.
Proof.
  exact (proj2 (hover_is_one_pointer_move (VDict [("x", VNum 1%Q); ("y", VNum 2%Q)])
                  quiet_browser blank_state) 1%Q 2%Q eq_refl).
Defined.

Lemma element_rect_defaults_to_left_top_witness :
  exists x y,
    _extract_coordinates (VDict [("elementRect", VDict [("left", VNum 10%Q); ("top", VNum 20%Q)])])
    = Ok (Some (x, y)) /\ (x == 10)%Q /\ (y == 20)%Q.
Proof.
  apply (element_rect_defaults_to_left_top _ [("left", VNum 10%Q); ("top", VNum 20%Q)]);
    reflexivity.
Defined.

Lemma input_fallback_on_timeout_witness :
  _perform_input no_repr (VDict [("id", VStr "name"); ("value", VStr "v")]) quiet_browser blank_state
  = (Ok tt, snd (browser_call (LocatorFill (Locator "#name") (VStr "v") 5000%Z)
                  quiet_browser blank_state)).
Proof.
  assert (Hv : get (VDict [("id", VStr "name"); ("value", VStr "v")]) "value" <> VNone)
    by discriminate.
  assert (Hne : "#name" <> "") by discriminate.
  exact (proj1 (proj1 (proj2 (input_fallback_on_timeout no_repr
                               (VDict [("id", VStr "name"); ("value", VStr "v")])
                               quiet_browser blank_state) Hv) "#name" eq_refl Hne) eq_refl).
Defined.


(** ** Witnesses of the further properties *)

Lemma split_event_type_round_trip_witness :
  _split_event_type ("action" ++ ":" ++ "user" ++ ":" ++ "key:down") = ("action", "user", "key:down").
Proof. apply split_event_type_round_trip; reflexivity. Defined.

Lemma urls_differ_ignores_trailing_slash_witness :
  _urls_differ ("https://shop.example/cart" ++ "/") (VStr "https://shop.example/cart")
  = _urls_differ "https://shop.example/cart" (VStr "https://shop.example/cart")
  /\ _urls_differ "https://shop.example/cart" (VStr ("https://shop.example/cart" ++ "/"))
     = _urls_differ "https://shop.example/cart" (VStr "https://shop.example/cart").
Proof. apply urls_differ_ignores_trailing_slash. discriminate. Defined.

Lemma css_escape_app_and_plain_witness :
  css_escape "nav-item" = "nav-item".
Proof.
  apply (proj2 (css_escape_app_and_plain "nav-item" "")). vm_compute. reflexivity.
Defined.

Lemma built_selector_is_truthy_witness :
  truthy_selector (Some "#main") = Some "#main".
Proof. apply (built_selector_is_truthy no_repr (VDict [("id", VStr "main")])). reflexivity. Defined.

Lemma non_string_tag_aborts_selector_steps_witness :
  _perform_submit no_repr (VDict [("className", VStr "btn primary"); ("tag", VNum 1%Q)])
    quiet_browser blank_state
  = (Exc AttributeError, blank_state).
Proof.
  apply (non_string_tag_aborts_selector_steps no_repr
           (VDict [("className", VStr "btn primary"); ("tag", VNum 1%Q)]));
    [reflexivity|reflexivity|vm_compute; discriminate|reflexivity|intros t Ht; discriminate Ht].
Defined.


Lemma extract_coordinates_precedence_witness :
  _extract_coordinates
    (VDict [("coordinates", VDict [("client", VDict [("x", VNum 1%Q); ("y", VNum 2%Q)])]);
            ("elementRect", VDict [("left", VNum 0%Q); ("top", VNum 0%Q); ("width", VNone)])])
  = Ok (Some (1%Q, 2%Q)).
Proof.
  apply (proj1 (extract_coordinates_precedence
                  (VDict [("coordinates", VDict [("client", VDict [("x", VNum 1%Q); ("y", VNum 2%Q)])]);
                          ("elementRect", VDict [("left", VNum 0%Q); ("top", VNum 0%Q);
                                                 ("width", VNone)])]))).
  reflexivity.
Defined.

Lemma coordinates_viewport_shadows_payload_viewport_witness :
  _extract_coordinates
    (VDict [("coordinates", VDict [("relative", VDict [("x", VNum (1#2)); ("y", VNum (1#2))]);
                                   ("viewport", VDict [("w", VNum 1%Q)])]);
            ("viewport", VDict [("width", VNum 800%Q); ("height", VNum 600%Q)])])
  = _extract_coordinates
      (without_key "coordinates"
         (VDict [("coordinates", VDict [("relative", VDict [("x", VNum (1#2)); ("y", VNum (1#2))]);
                                        ("viewport", VDict [("w", VNum 1%Q)])]);
                 ("viewport", VDict [("width", VNum 800%Q); ("height", VNum 600%Q)])])).
Proof.
  apply coordinates_viewport_shadows_payload_viewport; reflexivity.
Defined.

Lemma click_with_coordinates_moves_waits_clicks_witness :
  trace (snd (_perform_pointer_click no_repr (VDict [("x", VNum 1%Q); ("y", VNum 2%Q)])
                quiet_browser blank_state))
  = [Call (MouseMove 1%Q 2%Q); Sleep 100; Call (MouseClick 1%Q 2%Q)]
  /\ fst (_perform_pointer_click no_repr (VDict [("x", VNum 1%Q); ("y", VNum 2%Q)])
            quiet_browser blank_state) = Ok tt.
Proof.
  exact (click_with_coordinates_moves_waits_clicks no_repr (VDict [("x", VNum 1%Q); ("y", VNum 2%Q)])
           1%Q 2%Q quiet_browser blank_state eq_refl).
Defined.

Lemma click_without_coordinates_witness :
  _perform_pointer_click no_repr (VDict [("id", VStr "go")]) quiet_browser blank_state
  = browser_call (LocatorClick (Locator "#go") 5000%Z) quiet_browser blank_state.
Proof.
  assert (Hne : "#go" <> "") by discriminate.
  exact (proj2 (click_without_coordinates no_repr (VDict [("id", VStr "go")]) quiet_browser blank_state
                  eq_refl) "#go" eq_refl Hne).
Defined.

Lemma scroll_is_best_effort_witness :
  _perform_scroll (VDict [("x", VNum 0%Q); ("y", VNum 300%Q)]) quiet_browser blank_state
  = (Ok tt, snd (browser_call (EvaluateScroll (VNum 0%Q) (VNum 300%Q)) quiet_browser blank_state)).
Proof.
  exact (proj2 (proj2 (scroll_is_best_effort (VDict [("x", VNum 0%Q); ("y", VNum 300%Q)])
                         quiet_browser blank_state) eq_refl) eq_refl).
Defined.

Lemma keydown_press_then_type_witness :
  _perform_keydown (VDict [("key", VStr "Enter")]) quiet_browser blank_state
  = (Ok tt, snd (browser_call (KeyboardPress (VStr "Enter")) quiet_browser blank_state)).
Proof.
  exact (proj2 (keydown_press_then_type (VDict [("key", VStr "Enter")]) quiet_browser blank_state)
           eq_refl).
Defined.

Lemma state_step_raises_only_on_non_string_url_witness :
  snd (_handle_state_step accept_netloc accept_netloc "browser" "navigated"
         (VDict [("url", VNum 5%Q)]) quiet_browser (mkstate "https://shop.example/" true []))
  = mkstate "https://shop.example/" true [].
Proof.
  assert (H : fst (_handle_state_step accept_netloc accept_netloc "browser" "navigated"
                     (VDict [("url", VNum 5%Q)]) quiet_browser (mkstate "https://shop.example/" true []))
              = Exc AttributeError) by (vm_compute; reflexivity).
  destruct (state_step_raises_only_on_non_string_url accept_netloc accept_netloc
              "browser" "navigated" (VDict [("url", VNum 5%Q)]) quiet_browser
              (mkstate "https://shop.example/" true []) AttributeError H)
    as (_ & _ & _ & _ & _ & _ & Hs).
  exact Hs.
Defined.

Lemma unrecognised_steps_are_skipped_witness :
  _run_step no_repr accept_netloc accept_netloc (mkstep 1 "action:user:drag" (VDict []))
    quiet_browser blank_state
  = (Ok tt, blank_state).
Proof.
  assert (Hn : ~ In "drag" ["click"; "hover"; "scroll"; "input"; "keydown"; "submit"]).
  { simpl. intuition discriminate. }
  exact (unrecognised_steps_are_skipped no_repr accept_netloc accept_netloc
           (mkstep 1 "action:user:drag" (VDict [])) quiet_browser blank_state
           (or_intror (or_introl (conj eq_refl (conj eq_refl Hn))))).
Defined.

Lemma run_extends_trace_keeps_flag_witness :
  initial_navigation_done
    (snd (run no_repr accept_netloc accept_netloc false
            [mkstep 1 "action:user:click" (VDict [("x", VNum 1%Q); ("y", VNum 2%Q)])]
            quiet_browser (mkstate "https://shop.example/" true [])))
  = true.
Proof.
  exact (proj2 (run_extends_trace_keeps_flag no_repr accept_netloc accept_netloc false
                  [mkstep 1 "action:user:click" (VDict [("x", VNum 1%Q); ("y", VNum 2%Q)])]
                  quiet_browser (mkstate "https://shop.example/" true [])) eq_refl).
Defined.

Lemma run_skips_leading_navigation_to_current_page_witness :
  run no_repr accept_netloc accept_netloc false
    [mkstep 1 "state:browser:navigated" (VDict [("url", VStr "https://shop.example/cart/")])]
    quiet_browser (mkstate "https://shop.example/cart" false [])
  = run no_repr accept_netloc accept_netloc false [] quiet_browser
      (mkstate "https://shop.example/cart" true [Sleep (base_delay_of false)]).
Proof.
  apply (run_skips_leading_navigation_to_current_page no_repr accept_netloc accept_netloc
           false 1 (VDict [("url", VStr "https://shop.example/cart/")]) "https://shop.example/cart/");
    [discriminate|discriminate|reflexivity|reflexivity].
Defined.

Lemma first_navigation_from_blank_page_is_goto_witness :
  _handle_state_step accept_netloc accept_netloc "browser" "navigated"
    (VDict [("url", VStr "https://shop.example/")]) quiet_browser blank_state
  = (Ok tt, mkstate "about:blank" true [Call (Goto (VStr "https://shop.example/"))]).
Proof.
  exact (first_navigation_from_blank_page_is_goto accept_netloc accept_netloc
           (VDict [("url", VStr "https://shop.example/")]) quiet_browser blank_state
           eq_refl (or_intror eq_refl) eq_refl eq_refl).
Defined.

Lemma spa_route_change_ignores_target_fragment_witness :
  _is_spa_route_change accept_netloc accept_netloc "https://shop.example/cart"
    (VStr ("https://shop.example/checkout" ++ "#" ++ "step-2"))
  = _is_spa_route_change accept_netloc accept_netloc "https://shop.example/cart"
      (VStr "https://shop.example/checkout").
Proof.
  apply (spa_route_change_ignores_target_fragment accept_netloc accept_netloc
           "https://shop.example/cart" "https://shop.example/checkout" "step-2").
  reflexivity.
Defined.

(** ** Counterexamples *)

(** C2: from [about:blank], a target that differs only by its fragment is a
    real navigation; and an upper-case [.HTML] path, which does not end in
    any of the listed (lower-case) extensions, is a real navigation too. *)
Lemma spa_classification_counterexample :
  urlparse accept_netloc accept_netloc "about:blank" = Some (mkparse "about" "" "blank" "" "" "")
  /\ urlparse accept_netloc accept_netloc "about:blank#top" = Some (mkparse "about" "" "blank" "" "" "top")
  /\ _is_spa_route_change accept_netloc accept_netloc "about:blank" (VStr "about:blank#top") = false
  /\ urlparse accept_netloc accept_netloc "https://shop.example/Index.HTML"
     = Some (mkparse "https" "shop.example" "/Index.HTML" "" "" "")
  /\ existsb (fun ext => ends_with ext "/Index.HTML") static_extensions = false
  /\ _is_spa_route_change accept_netloc accept_netloc
       "https://shop.example/cart" (VStr "https://shop.example/Index.HTML") = false.
Proof. repeat split; vm_compute; reflexivity. Qed.

(** C3: with an empty current URL, the target ["/"] strips to the same
    empty string, yet the handler navigates. *)
Lemma navigation_skip_counterexample :
  rstrip_slash "" = rstrip_slash "/"
  /\ _handle_state_step accept_netloc accept_netloc "browser" "navigated"
       (VDict [("url", VStr "/")]) quiet_browser (mkstate "" true [])
     = (Ok tt, mkstate "" true [Call (Goto (VStr "/"))]).
Proof. split; vm_compute; reflexivity. Qed.

(** C6: Enter on [#checkout] times out; the submit button is present and
    clicking it would succeed, but the handler raises at once. *)
Lemma submit_chain_counterexample :
  _perform_submit no_repr (VDict [("id", VStr "checkout")]) stuck_form_browser blank_state
  = (Exc TimeoutError,
     mkstate "about:blank" false
       [Call (LocatorCount (Locator "#checkout"));
        Call (LocatorPress (Locator "#checkout") "Enter" 2000%Z)])
  /\ (0 < count_of stuck_form_browser [] (First submit_button_selector))%nat
  /\ fails stuck_form_browser [] (LocatorClick (First submit_button_selector) 2000%Z) = None.
Proof. repeat split; vm_compute; try reflexivity; lia. Qed.

(** C7: filling [#name] fails with an error that is not a timeout; a
    focused element is present and fillable, but it is never tried. *)
Lemma input_fallback_counterexample :
  _perform_input no_repr (VDict [("id", VStr "name"); ("value", VStr "v")])
    fill_rejecting_browser blank_state
  = (Exc (PlaywrightError "Element is not an <input>"),
     mkstate "about:blank" false [Call (LocatorFill (Locator "#name") (VStr "v") 5000%Z)])
  /\ (0 < count_of fill_rejecting_browser [] (Locator ":focus"))%nat
  /\ fails fill_rejecting_browser [] (LocatorFill (Locator ":focus") (VStr "v") 2000%Z) = None.
Proof. repeat split; vm_compute; try reflexivity; lia. Qed.

(** C8: a hover whose pointer move raises aborts the step. *)
Lemma hover_fatal_counterexample :
  fst (_perform_pointer_move (VDict [("x", VNum 1%Q); ("y", VNum 2%Q)])
         closed_page_browser blank_state)
  = Exc (PlaywrightError "Target page, context or browser has been closed").
Proof. vm_compute. reflexivity. Qed.

(** C9: a navigated step with no [url] leaves the flag false. *)
Lemma navigation_flag_counterexample :
  initial_navigation_done
    (snd (_handle_state_step accept_netloc accept_netloc "browser" "navigated"
            (VDict []) quiet_browser blank_state))
  = false.
Proof. vm_compute. reflexivity. Qed.
